(** * Content type gating and course duration limits (edx-platform)

    A shallow embedding of
      - openedx/features/content_type_gating/partitions.py
      - openedx/features/course_duration_limits/models.py
    together with the properties of the group-assignment decision and of
    the duration-limit policy.

    The Python code talks to many collaborators (masquerade state, waffle
    flags, the course-mode table, the enrollment table, the commerce
    service, the logger).  They are gathered in one record, [World]; each
    function of the source becomes a computation that records, in order,
    which collaborators it consulted and what it logged, and that either
    returns a value or raises a Python exception. *)

From Stdlib Require Import ZArith String List Bool DecimalString.
From stdpp Require Import base option list strings gmap.

Local Open Scope Z_scope.
Local Open Scope string_scope.

(** ** Python values, exceptions and effects *)

Module Py.

(** The dynamically typed values that cross the functions modelled here. *)
Inductive pyval : Type :=
| PyNone
| PyBool (b : bool)
| PyInt (n : Z)
| PyStr (s : string).

#[global] Instance pyval_eq_dec : EqDecision pyval.
Proof. solve_decision. Defined.

(** Python truth value testing. *)
Definition truthy (v : pyval) : bool :=
  match v with
  | PyNone => false
  | PyBool b => b
  | PyInt n => negb (n =? 0)%Z
  | PyStr s => negb (String.eqb s "")
  end.

(** [bool(v)] *)
Definition py_bool (v : pyval) : pyval := PyBool (truthy v).

(** [a and b], with [b] already evaluated (use only where [b] is pure). *)
Definition py_and (a b : pyval) : pyval := if truthy a then b else a.

(** [a or b], with [b] already evaluated. *)
Definition py_or (a b : pyval) : pyval := if truthy a then a else b.

(** [str(n)] for an integer. *)
Definition str_int (n : Z) : string := NilZero.string_of_int (Z.to_int n).

(** [str(v)] *)
Definition py_str (v : pyval) : string :=
  match v with
  | PyNone => "None"
  | PyBool true => "True"
  | PyBool false => "False"
  | PyInt n => str_int n
  | PyStr s => s
  end.

Definition of_opt_str (o : option string) : pyval :=
  match o with Some s => PyStr s | None => PyNone end.

Definition of_opt_bool (o : option bool) : pyval :=
  match o with Some b => PyBool b | None => PyNone end.

(** Exceptions raised by the modelled code or by the interpreter. *)
Inductive exn : Type :=
| ValueError (msg : string)
| TypeError
| AttributeError
| UserPartitionError
| ValidationError (field msg : string)
| UnicodeEncodeError.

Inductive level : Type := WARNING | ERROR.

(** External collaborators a computation may consult. *)
Inductive collaborator : Type :=
| GetCourseMasquerade
| IsMasqueradingAsSpecificStudent
| GetMasqueradingUserGroup
| ContentTypeGatingFlag
| ContentTypeGatingStudioUiFlag
| ModesForCourse
| ModesForCourseDict
| HasVerifiedMode
| ModeForCourse
| EnrollmentModeForUser
| EcommerceIsEnabled
| GetCheckoutPageUrl
| CurrentRequest
| GetScheme
| GetEnrollment
| CurrentConfig
| UtcNow.

Inductive event : Type :=
| Consult (c : collaborator)
| Logged (l : level) (msg : string).

#[global] Instance level_eq_dec : EqDecision level.
Proof. solve_decision. Defined.
#[global] Instance collaborator_eq_dec : EqDecision collaborator.
Proof. solve_decision. Defined.
#[global] Instance event_eq_dec : EqDecision event.
Proof. solve_decision. Defined.

Inductive outcome (A : Type) : Type :=
| Returned (a : A)
| Raised (e : exn).
Arguments Returned {A} a.
Arguments Raised {A} e.

(** A computation: the events it produced, in order, and how it ended. *)
Definition eff (A : Type) : Type := list event * outcome A.

#[global] Instance eff_ret : MRet eff := λ A a, ([], Returned a).

#[global] Instance eff_bind : MBind eff := λ A B f m,
  match m with
  | (t, Returned a) => let '(t', r) := f a in ((t ++ t')%list, r)
  | (t, Raised e) => (t, Raised e)
  end.

Definition consult {A : Type} (c : collaborator) (a : A) : eff A :=
  ([Consult c], Returned a).

Definition log (l : level) (msg : string) : eff unit :=
  ([Logged l msg], Returned tt).

Definition raise {A : Type} (e : exn) : eff A := ([], Raised e).

(** [try: m  except e: h] for the single exception class [e]. *)
Definition try_except {A : Type} (m : eff A) (catches : exn → bool)
    (h : eff A) : eff A :=
  match m with
  | (t, Raised e) =>
      if catches e then let '(t', r) := h in ((t ++ t')%list, r) else (t, Raised e)
  | _ => m
  end.

(** Text is held as its UTF-8 bytes: a character is ASCII when its code is
    below 128, and a unicode object can be encoded with the ascii codec
    exactly when all of its bytes are. *)
Fixpoint is_ascii (s : string) : bool :=
  match s with
  | EmptyString => true
  | String c rest => (Ascii.N_of_ascii c <? 128)%N && is_ascii rest
  end.

(** [str(u)] for a unicode object [u] in Python 2, as a byte-string
    [.format()] applies it to each unicode argument: the default ascii
    codec raises UnicodeEncodeError on a non-ASCII character. *)
Definition py2_str_of_unicode (u : string) : eff string :=
  if is_ascii u then mret u else raise UnicodeEncodeError.

Definition trace {A : Type} (m : eff A) : list event := m.1.
Definition result {A : Type} (m : eff A) : outcome A := m.2.

Definition is_log (l : level) (e : event) : bool :=
  match e with
  | Logged l' _ => bool_decide (l = l')
  | Consult _ => false
  end.

Definition is_any_log (e : event) : bool :=
  match e with Logged _ _ => true | Consult _ => false end.

(** The log records of a trace, and those of one level. *)
Definition logs (t : list event) : list event := List.filter is_any_log t.
Definition logs_at (l : level) (t : list event) : list event :=
  List.filter (is_log l) t.

Definition consulted (c : collaborator) (t : list event) : bool :=
  existsb (λ e, bool_decide (e = Consult c)) t.

End Py.
Export Py.

(** ** Data of the platform and its collaborators *)

Module Platform.

Definition CourseKey : Type := string.

Record User : Type := { username : string }.

(** [xmodule.partitions.partitions.Group] *)
Record Group : Type := { group_id : Z; group_name : string }.

#[global] Instance Group_eq_dec : EqDecision Group.
Proof. solve_decision. Defined.

(** [xmodule.partitions.partitions.UserPartition]: the attributes set by
    its constructor.  The scheme is referred to by its registered name. *)
Record UserPartition : Type := {
  p_id : Z;
  p_name : string;
  p_description : string;
  p_groups : list Group;
  p_scheme : string;
  p_parameters : option (gmap string string);
  p_active : bool
}.

(** What the code reads of a course descriptor. *)
Record Course : Type := {
  course_id : CourseKey;
  user_partitions : list UserPartition
}.

(** [block.scope_ids.usage_id.course_key] *)
Record Block : Type := { block_course_key : CourseKey }.

(** A course mode (the [Mode] tuple of [course_modes.models]); the price
    is the whole number held by the course-mode table. *)
Record Mode : Type := {
  slug : string;
  min_price : Z;
  sku : option string
}.

(** [CourseMode.AUDIT], [CourseMode.VERIFIED] *)
Definition AUDIT : string := "audit".
Definition VERIFIED : string := "verified".

(** Masquerade settings kept for a staff user in a course. *)
Record CourseMasquerade : Type := {
  masq_user_partition_id : option Z;
  masq_group_id : option Z;
  masq_user_name : option string
}.

(** A partition scheme as the registry hands it out: its
    [create_user_partition(id, name, description, groups, parameters,
    active)] class method. *)
Record Scheme : Type := {
  scheme_create_user_partition :
    Z → string → string → option (list Group) →
    option (gmap string string) → bool → UserPartition
}.

(** [datetime.date]; compared as (year, month, day). *)
Record date : Type := { year : Z; month : Z; day : Z }.

(** [datetime.datetime], as far as [.date()] goes. *)
Record datetime : Type := { dt_date : date; dt_seconds : Z }.

(** [student.models.CourseEnrollment] row. *)
Record Enrollment : Type := {
  enrollment_course_id : CourseKey;
  created : datetime
}.

(** A [CourseDurationLimitConfig] row, or the stacked configuration that
    [current()] resolves: the two STACKABLE_FIELDS, both nullable. *)
Record CourseDurationLimitConfig : Type := {
  enabled : option bool;
  enabled_as_of : option date
}.

(** The answers of the collaborators the two source files import. *)
Record World : Type := {
  (* lms.djangoapps.courseware.masquerade *)
  get_course_masquerade : User → CourseKey → option CourseMasquerade;
  is_masquerading_as_specific_student : User → CourseKey → bool;
  get_masquerading_user_group :
    CourseKey → User → UserPartition → option Group;
  (* openedx.features.course_duration_limits.config *)
  CONTENT_TYPE_GATING_FLAG : bool;
  CONTENT_TYPE_GATING_STUDIO_UI_FLAG : bool;
  (* course_modes.models.CourseMode *)
  modes_for_course : CourseKey → bool → bool → list Mode;
  modes_for_course_dict : CourseKey → gmap string Mode;
  has_verified_mode : gmap string Mode → bool;
  mode_for_course : CourseKey → string → list Mode → option Mode;
  (* student.CourseEnrollment *)
  enrollment_mode_for_user : User → CourseKey → option string * option bool;
  get_enrollment : User → CourseKey → option Enrollment;
  (* lms.djangoapps.commerce.utils.EcommerceService *)
  ecommerce_is_enabled : User → bool;
  get_checkout_page_url : string → option string;
  (* crum / openedx.core.lib.mobile_utils *)
  request_from_mobile_app : bool;
  (* UserPartition.get_scheme: None stands for UserPartitionError *)
  get_scheme : string → option Scheme;
  (* django.utils.translation.ugettext_lazy, forced by unicode() *)
  ugettext : string → string;
  (* StackedConfigurationModel.current(course_key=...) *)
  current : CourseKey → CourseDurationLimitConfig;
  (* datetime.utcnow() *)
  utcnow : datetime
}.

End Platform.
Export Platform.

(** ** openedx/features/content_type_gating/partitions.py *)

Module Partitions.

Definition CONTENT_GATING_PARTITION_ID : Z := 51.

(** [CONTENT_TYPE_GATE_GROUP_IDS] *)
Definition CONTENT_TYPE_GATE_GROUP_IDS : gmap string Z :=
  <["limited_access" := 1]> (<["full_access" := 2]> ∅).

(** [CONTENT_TYPE_GATE_GROUP_IDS[key]], read for the two keys of the table. *)
Definition group_id_of (key : string) : Z :=
  default 0 (CONTENT_TYPE_GATE_GROUP_IDS !! key).

Definition LIMITED_ACCESS : Group :=
  {| group_id := group_id_of "limited_access";
     group_name := "Limited-access Users" |}.

Definition FULL_ACCESS : Group :=
  {| group_id := group_id_of "full_access";
     group_name := "Full-access Users" |}.

(** What [Fragment(render_to_string(template, context))] holds: template
    rendering is left to Django, so the content is kept as the template
    name and the context it is rendered with. *)
Record Fragment : Type := {
  template : string;
  context : gmap string pyval
}.

(** [_get_partition_from_id] *)
Fixpoint _get_partition_from_id (partitions : list UserPartition)
    (user_partition_id : Z) : option UserPartition :=
  match partitions with
  | [] => None
  | partition :: rest =>
      if (p_id partition =? user_partition_id)%Z then Some partition
      else _get_partition_from_id rest user_partition_id
  end.

(** [ContentTypeGatingPartitionScheme.create_user_partition]: [groups] and
    [active] are accepted and not used. *)
Definition create_user_partition (id : Z) (name description : string)
    (groups : option (list Group)) (parameters : option (gmap string string))
    (active : bool) : UserPartition :=
  {| p_id := id;
     p_name := name;
     p_description := description;
     p_groups := [LIMITED_ACCESS; FULL_ACCESS];
     p_scheme := "content_type_gate";
     p_parameters := parameters;
     p_active := true |}.

Definition ContentTypeGatingPartitionScheme : Scheme :=
  {| scheme_create_user_partition := create_user_partition |}.

(** [{mode.slug: mode for mode in modes}]: a later mode replaces an
    earlier one with the same slug. *)
Definition modes_dict_of (modes : list Mode) : gmap string Mode :=
  foldl (λ d mode, <[slug mode := mode]> d) ∅ modes.

Definition unknown_mode_message (user : User) (mode_slug : string)
    (course_key : CourseKey) : string :=
  "User " +:+ username user +:+ " is in an unknown CourseMode '"
    +:+ mode_slug +:+ "' for course " +:+ course_key
    +:+ ". Granting full access to content for this user".

(** The text of the collision warning once its fields are filled in. *)
Definition collision_text (partition_name : string)
    (course : CourseKey) : string :=
  "Can't add 'content_type_gate' partition, as ID "
    +:+ str_int CONTENT_GATING_PARTITION_ID +:+ " is assigned to "
    +:+ partition_name +:+ " in course " +:+ course +:+ ".".

(** ["Can't add ... {id} ... {partition} ... {course}.".format(...)]: the
    module has no unicode_literals, so the template is a byte string and the
    two unicode arguments, the partition's name and [unicode(course.id)],
    are converted with the ascii codec, in the order of the fields. *)
Definition collision_message (partition_name : string)
    (course : CourseKey) : eff string :=
  partition ← py2_str_of_unicode partition_name;
  course ← py2_str_of_unicode course;
  mret (collision_text partition course).

Definition no_scheme_message : string :=
  "No 'content_type_gate' scheme registered, ContentTypeGatingPartitionScheme will not be created.".

Definition catches_UserPartitionError (e : exn) : bool :=
  match e with UserPartitionError => true | _ => false end.

Section with_world.
Context (w : World).

(** [UserPartition.get_scheme(name)] *)
Definition lookup_scheme (name : string) : eff Scheme :=
  match get_scheme w name with
  | Some s => consult GetScheme s
  | None => ([Consult GetScheme], Raised UserPartitionError)
  end.

(** [create_content_gating_partition] *)
Definition create_content_gating_partition (course : Course)
    : eff (option UserPartition) :=
  gating ← consult ContentTypeGatingFlag (CONTENT_TYPE_GATING_FLAG w);
  either ← (if gating : bool then mret true
            else consult ContentTypeGatingStudioUiFlag
                   (CONTENT_TYPE_GATING_STUDIO_UI_FLAG w));
  if negb either then mret None else
  found ← try_except
             (s ← lookup_scheme "content_type_gate"; mret (Some s))
             catches_UserPartitionError
             (log WARNING no_scheme_message;; mret None);
  match found with
  | None => mret None
  | Some content_gate_scheme =>
      let used_ids : gset Z := list_to_set (p_id <$> user_partitions course) in
      if bool_decide (CONTENT_GATING_PARTITION_ID ∈ used_ids) then
        partition_name ←
          match _get_partition_from_id (user_partitions course)
                  CONTENT_GATING_PARTITION_ID with
          | Some partition => mret (p_name partition)
          | None => raise AttributeError
          end;
        message ← collision_message partition_name (course_id course);
        log WARNING message;;
        mret None
      else
        mret (Some (scheme_create_user_partition content_gate_scheme
                      CONTENT_GATING_PARTITION_ID
                      (ugettext w "Feature-based Enrollments")
                      (ugettext w "Partition for segmenting users by access to gated content types")
                      None
                      (Some {["course_id" := course_id course]})
                      true))
  end.

(** [ContentTypeGatingPartition._is_audit_enrollment] *)
Definition _is_audit_enrollment (user : User) (block : Block) : eff pyval :=
  '(mode_slug, is_active) ←
    consult EnrollmentModeForUser
      (enrollment_mode_for_user w user (block_course_key block));
  mret (py_and (PyBool (bool_decide (mode_slug = Some AUDIT)))
               (of_opt_bool is_active)).

(** [ContentTypeGatingPartition._get_checkout_link]: outside the [if]
    the function ends without a [return], which yields [None]. *)
Definition _get_checkout_link (user : User) (sku : option string)
    : eff pyval :=
  ecommerce_checkout ← consult EcommerceIsEnabled (ecommerce_is_enabled w user);
  match sku with
  | Some s =>
      if truthy (py_and (PyBool ecommerce_checkout) (PyStr s)) then
        url ← consult GetCheckoutPageUrl (get_checkout_page_url w s);
        mret (py_or (of_opt_str url) (PyStr ""))
      else mret PyNone
  | None => mret PyNone
  end.

(** [ContentTypeGatingPartition.access_denied_fragment] *)
Definition access_denied_fragment (block : Block) (user : User)
    : eff (option Fragment) :=
  modes ← consult ModesForCourseDict
             (modes_for_course_dict w (block_course_key block));
  match modes !! VERIFIED with
  | None => mret None
  | Some verified_mode =>
      audit ← _is_audit_enrollment user block;
      if negb (truthy audit) then mret None else
      ecommerce_checkout_link ← _get_checkout_link user (sku verified_mode);
      mobile ← consult CurrentRequest (request_from_mobile_app w);
      mret (Some
        {| template := "content_type_gating/access_denied_message.html";
           context :=
             <["mobile_app" := PyBool mobile]>
             (<["ecommerce_checkout_link" := ecommerce_checkout_link]>
             (<["min_price" := PyStr (py_str (PyInt (min_price verified_mode)))]>
              ∅)) |})
  end.

(** [ContentTypeGatingPartition.access_denied_message] *)
Definition access_denied_message (block : Block) (user : User)
    : eff (option string) :=
  audit ← _is_audit_enrollment user block;
  if truthy audit then
    mret (Some "Graded assessments are available to Verified Track learners. Upgrade to Unlock.")
  else mret None.

(** [ContentTypeGatingPartitionScheme.get_group_for_user] *)
Definition get_group_for_user (course_key : CourseKey) (user : User)
    (user_partition : UserPartition) : eff (option Group) :=
  masquerade ← consult GetCourseMasquerade (get_course_masquerade w user course_key);
  as_group ← (if masquerade is Some _ then
                specific ← consult IsMasqueradingAsSpecificStudent
                             (is_masquerading_as_specific_student w user course_key);
                mret (negb specific)
              else mret false);
  if as_group : bool then
    consult GetMasqueradingUserGroup
      (get_masquerading_user_group w course_key user user_partition)
  else
  flag ← consult ContentTypeGatingFlag (CONTENT_TYPE_GATING_FLAG w);
  if negb flag then mret (Some FULL_ACCESS) else
  modes ← consult ModesForCourse (modes_for_course w course_key true false);
  let modes_dict := modes_dict_of modes in
  verified ← consult HasVerifiedMode (has_verified_mode w modes_dict);
  if negb verified then mret (Some FULL_ACCESS) else
  '(mode_slug, is_active) ←
    consult EnrollmentModeForUser (enrollment_mode_for_user w user course_key);
  match mode_slug with
  | Some mode_slug =>
      if truthy (py_and (PyStr mode_slug) (of_opt_bool is_active)) then
        course_mode ← consult ModeForCourse
                        (mode_for_course w course_key mode_slug modes);
        match course_mode with
        | None =>
            log ERROR (unknown_mode_message user mode_slug course_key);;
            mret (Some FULL_ACCESS)
        | Some _ =>
            if String.eqb mode_slug AUDIT then mret (Some LIMITED_ACCESS)
            else mret (Some FULL_ACCESS)
        end
      else mret (Some LIMITED_ACCESS)
  | None => mret (Some LIMITED_ACCESS)
  end.

(** The user is not previewing the course as a member of a group: no
    masquerade is in effect, or the masquerade is as a specific student.  The
    first test of [get_group_for_user] is then false. *)
Definition not_group_masquerading (course_key : CourseKey) (user : User) : Prop :=
  get_course_masquerade w user course_key = None
  ∨ is_masquerading_as_specific_student w user course_key = true.

End with_world.

End Partitions.

(** ** openedx/features/course_duration_limits/models.py *)

Module DurationLimits.

(** [a <= b] on two [datetime.date] objects. *)
Definition date_leb (a b : date) : bool :=
  if (year a =? year b)%Z then
    if (month a =? month b)%Z then (day a <=? day b)%Z
    else (month a <? month b)%Z
  else (year a <? year b)%Z.

(** [a <= b] where [a] comes from a nullable DateField: [datetime.date]
    refuses to be ordered against [None] and raises [TypeError]. *)
Definition py_date_le (a : option date) (b : date) : eff pyval :=
  match a with
  | Some d => mret (PyBool (date_leb d b))
  | None => raise TypeError
  end.

(** [CourseDurationLimitConfig.clean] *)
Definition clean (self : CourseDurationLimitConfig) : eff unit :=
  if truthy (py_and (of_opt_bool (enabled self))
                    (PyBool (bool_decide (enabled_as_of self = None))))
  then raise (ValidationError "enabled_as_of"
                "enabled_as_of must be set when enabled is True")
  else mret tt.

Section with_world.
Context (w : World).

(** [CourseDurationLimitConfig.enabled_as_of_date]; the right operand of
    [and] is evaluated only when [self.enabled] is truthy. *)
Definition enabled_as_of_date (self : CourseDurationLimitConfig)
    (target_date : date) : eff pyval :=
  flag ← consult ContentTypeGatingFlag (CONTENT_TYPE_GATING_FLAG w);
  if flag : bool then mret (PyBool true) else
  conj ← (if truthy (of_opt_bool (enabled self))
          then py_date_le (enabled_as_of self) target_date
          else mret (of_opt_bool (enabled self)));
  mret (py_bool conj).

(** [CourseDurationLimitConfig.enabled_for_course] *)
Definition enabled_for_course (course_key : CourseKey)
    (target_date : option date) : eff pyval :=
  flag ← consult ContentTypeGatingFlag (CONTENT_TYPE_GATING_FLAG w);
  if flag : bool then mret (PyBool true) else
  target_date ← (match target_date with
                 | Some d => mret d
                 | None => now ← consult UtcNow (utcnow w); mret (dt_date now)
                 end);
  current_config ← consult CurrentConfig (current w course_key);
  enabled_as_of_date current_config target_date.

(** [CourseDurationLimitConfig.enabled_for_enrollment] *)
Definition enabled_for_enrollment (enrollment : option Enrollment)
    (user : option User) (course_key : option CourseKey) : eff pyval :=
  flag ← consult ContentTypeGatingFlag (CONTENT_TYPE_GATING_FLAG w);
  if flag : bool then mret (PyBool true) else
  if bool_decide (enrollment ≠ None)
     && (bool_decide (user ≠ None) || bool_decide (course_key ≠ None))
  then raise (ValueError "Specify enrollment or user/course_key, but not both")
  else
  if bool_decide (enrollment = None)
     && (bool_decide (user = None) || bool_decide (course_key = None))
  then raise (ValueError "Both user and course_key must be specified if no enrollment is provided")
  else
  if bool_decide (enrollment = None) && bool_decide (user = None)
     && bool_decide (course_key = None)
  then raise (ValueError "At least one of enrollment or user and course_key must be specified")
  else
  (* course_key = enrollment.course_id when course_key is None *)
  course_key ← (match course_key, enrollment with
                | Some k, _ => mret k
                | None, Some e => mret (enrollment_course_id e)
                | None, None => raise AttributeError
                end);
  (* enrollment = CourseEnrollment.get_enrollment(user, course_key)
     when enrollment is None; the checks above leave user set there *)
  enrollment ← (match enrollment, user with
                | Some e, _ => mret (Some e)
                | None, Some u => consult GetEnrollment (get_enrollment w u course_key)
                | None, None => raise AttributeError
                end);
  match enrollment with
  | None =>
      now ← consult UtcNow (utcnow w);
      enabled_for_course course_key (Some (dt_date now))
  | Some e =>
      current_config ← consult CurrentConfig (current w (enrollment_course_id e));
      enabled_as_of_date current_config (dt_date (created e))
  end.

End with_world.

(** The rule of the specification for [enabled_for_course] once the flag
    is off: [enabled AND enabled_as_of <= targetDate], an unset [enabled]
    counting as false. *)
Definition spec_enabled_on (cfg_enabled : option bool) (as_of target : date)
    : bool :=
  default false cfg_enabled && date_leb as_of target.

End DurationLimits.

(** ** Concrete worlds

    A [Setup] fixes the answers of every collaborator for one course and
    one user; [world_of] turns it into a [World].  Course modes are looked
    up by slug in the list of modes of the course. *)

Module Scenario.

Record Setup : Type := {
  s_masquerade : option CourseMasquerade;
  s_specific_student : bool;
  s_gating_flag : bool;
  s_studio_flag : bool;
  s_modes : list Mode;
  s_enrollment_mode : option string * option bool;
  s_enrollment : option Enrollment;
  s_ecommerce : bool;
  s_scheme_registered : bool;
  s_config : CourseDurationLimitConfig
}.

Definition group_of_masquerade (m : option CourseMasquerade)
    (user_partition : UserPartition) : option Group :=
  cm ← m;
  pid ← masq_user_partition_id cm;
  gid ← masq_group_id cm;
  if (pid =? p_id user_partition)%Z
  then List.find (λ g, (group_id g =? gid)%Z) (p_groups user_partition)
  else None.

Definition world_of (s : Setup) : World :=
  {| get_course_masquerade := λ _ _, s_masquerade s;
     is_masquerading_as_specific_student := λ _ _, s_specific_student s;
     get_masquerading_user_group := λ _ _ user_partition,
       group_of_masquerade (s_masquerade s) user_partition;
     CONTENT_TYPE_GATING_FLAG := s_gating_flag s;
     CONTENT_TYPE_GATING_STUDIO_UI_FLAG := s_studio_flag s;
     modes_for_course := λ _ _ _, s_modes s;
     modes_for_course_dict := λ _, Partitions.modes_dict_of (s_modes s);
     has_verified_mode := λ d,
       bool_decide (is_Some (d !! "verified"))
       || bool_decide (is_Some (d !! "professional"));
     mode_for_course := λ _ mode_slug modes,
       List.find (λ m, String.eqb (slug m) mode_slug) modes;
     enrollment_mode_for_user := λ _ _, s_enrollment_mode s;
     get_enrollment := λ _ _, s_enrollment s;
     ecommerce_is_enabled := λ _, s_ecommerce s;
     get_checkout_page_url := λ sku, Some ("/basket/add/?sku=" +:+ sku);
     request_from_mobile_app := false;
     get_scheme := λ name,
       if s_scheme_registered s && String.eqb name "content_type_gate"
       then Some Partitions.ContentTypeGatingPartitionScheme else None;
     ugettext := λ msg, msg;
     current := λ _, s_config s;
     utcnow := {| dt_date := {| year := 2019; month := 1; day := 15 |};
                  dt_seconds := 0 |} |}.

Definition audit_mode : Mode :=
  {| slug := "audit"; min_price := 0; sku := None |}.
Definition verified_mode : Mode :=
  {| slug := "verified"; min_price := 100; sku := Some "8CF08E5" |}.

Definition unset_config : CourseDurationLimitConfig :=
  {| enabled := None; enabled_as_of := None |}.

Definition course_key : CourseKey := "course-v1:edX+DemoX+Demo_Course".
Definition learner : User := {| username := "honor" |}.
Definition staff : User := {| username := "staff" |}.
Definition block : Block := {| block_course_key := course_key |}.

Definition gating_partition : UserPartition :=
  Partitions.create_user_partition Partitions.CONTENT_GATING_PARTITION_ID
    "Feature-based Enrollments" "" None None true.

(** Flag on, audit and verified modes, learner actively enrolled in audit. *)
Definition audit_learner : Setup :=
  {| s_masquerade := None; s_specific_student := false;
     s_gating_flag := true; s_studio_flag := false;
     s_modes := [audit_mode; verified_mode];
     s_enrollment_mode := (Some "audit", Some true);
     s_enrollment := None;
     s_ecommerce := false; s_scheme_registered := true;
     s_config := unset_config |}.

(** The same learner in a course that offers the verified mode only. *)
Definition audit_learner_verified_only : Setup :=
  {| s_masquerade := None; s_specific_student := false;
     s_gating_flag := true; s_studio_flag := false;
     s_modes := [verified_mode];
     s_enrollment_mode := (Some "audit", Some true);
     s_enrollment := None;
     s_ecommerce := false; s_scheme_registered := true;
     s_config := unset_config |}.

(** A learner whose enrollment row names a mode the course does not have. *)
Definition honor_learner : Setup :=
  {| s_masquerade := None; s_specific_student := false;
     s_gating_flag := true; s_studio_flag := false;
     s_modes := [audit_mode; verified_mode];
     s_enrollment_mode := (Some "honor", Some true);
     s_enrollment := None;
     s_ecommerce := false; s_scheme_registered := true;
     s_config := unset_config |}.

(** A course with the audit mode only. *)
Definition audit_only_course : Setup :=
  {| s_masquerade := None; s_specific_student := false;
     s_gating_flag := true; s_studio_flag := false;
     s_modes := [audit_mode];
     s_enrollment_mode := (Some "audit", Some true);
     s_enrollment := None;
     s_ecommerce := false; s_scheme_registered := true;
     s_config := unset_config |}.

(** Staff previewing that audit-only course as a member of the
    limited-access group of the gating partition. *)
Definition staff_as_limited_group : Setup :=
  {| s_masquerade :=
       Some {| masq_user_partition_id := Some Partitions.CONTENT_GATING_PARTITION_ID;
               masq_group_id := Some 1;
               masq_user_name := None |};
     s_specific_student := false;
     s_gating_flag := true; s_studio_flag := false;
     s_modes := [audit_mode];
     s_enrollment_mode := (None, None);
     s_enrollment := None;
     s_ecommerce := false; s_scheme_registered := true;
     s_config := unset_config |}.

(** A course that clashes with the gating partition: an imported partition
    already uses id 51. *)
Definition imported_partition : UserPartition :=
  {| p_id := 51; p_name := "Imported cohort split"; p_description := "";
     p_groups := [{| group_id := 0; group_name := "A" |}];
     p_scheme := "random"; p_parameters := None; p_active := true |}.

Definition enrollment_track_partition : UserPartition :=
  {| p_id := 50; p_name := "Enrollment Track Groups"; p_description := "";
     p_groups := []; p_scheme := "enrollment_track";
     p_parameters := None; p_active := true |}.

Definition clashing_course : Course :=
  {| course_id := course_key;
     user_partitions := [enrollment_track_partition; imported_partition] |}.

(** Duration limits: gating flag off, limits enabled as of 2018-12-01. *)
Definition limits_since_december : CourseDurationLimitConfig :=
  {| enabled := Some true;
     enabled_as_of := Some {| year := 2018; month := 12; day := 1 |} |}.

(** A row that says enabled, with no date. *)
Definition enabled_without_date : CourseDurationLimitConfig :=
  {| enabled := Some true; enabled_as_of := None |}.

Definition flag_off (config : CourseDurationLimitConfig) : Setup :=
  {| s_masquerade := None; s_specific_student := false;
     s_gating_flag := false; s_studio_flag := false;
     s_modes := [audit_mode; verified_mode];
     s_enrollment_mode := (Some "audit", Some true);
     s_enrollment := None;
     s_ecommerce := false; s_scheme_registered := true;
     s_config := config |}.

Definition january_enrollment : Enrollment :=
  {| enrollment_course_id := course_key;
     created := {| dt_date := {| year := 2019; month := 1; day := 2 |};
                   dt_seconds := 36000 |} |}.

(** Learners and staff in the course with audit and verified modes, gating
    flag on: the enrollment row, the masquerade and the commerce switch vary. *)
Definition gated_course (masquerade : option CourseMasquerade)
    (specific : bool) (enrollment_mode : option string * option bool)
    (ecommerce registered : bool) : Setup :=
  {| s_masquerade := masquerade; s_specific_student := specific;
     s_gating_flag := true; s_studio_flag := false;
     s_modes := [audit_mode; verified_mode];
     s_enrollment_mode := enrollment_mode;
     s_enrollment := None;
     s_ecommerce := ecommerce; s_scheme_registered := registered;
     s_config := unset_config |}.

Definition verified_learner : Setup :=
  gated_course None false (Some "verified", Some true) false true.

Definition unenrolled_visitor : Setup :=
  gated_course None false (None, None) false true.

Definition inactive_audit_learner : Setup :=
  gated_course None false (Some "audit", Some false) false true.

(** Staff previewing the course as the learner "honor". *)
Definition staff_as_student : Setup :=
  gated_course
    (Some {| masq_user_partition_id := None; masq_group_id := None;
             masq_user_name := Some "honor" |})
    true (Some "audit", Some true) false true.

Definition audit_learner_with_checkout : Setup :=
  gated_course None false (Some "audit", Some true) true true.

Definition scheme_not_registered : Setup :=
  gated_course None false (Some "audit", Some true) false false.

(** The fragment shown to the audit learner when checkout is enabled. *)
Definition checkout_fragment : Partitions.Fragment :=
  {| Partitions.template := "content_type_gating/access_denied_message.html";
     Partitions.context :=
       <["mobile_app" := PyBool false]>
       (<["ecommerce_checkout_link" := PyStr "/basket/add/?sku=8CF08E5"]>
       (<["min_price" := PyStr "100"]> ∅)) |}.

(** A course imported with a partition of id 51 whose name is not ASCII. *)
Definition accented_partition : UserPartition :=
  {| p_id := 51; p_name := "Groupe évalué"; p_description := "";
     p_groups := [{| group_id := 0; group_name := "A" |}];
     p_scheme := "random"; p_parameters := None; p_active := true |}.

Definition accented_course : Course :=
  {| course_id := course_key;
     user_partitions := [enrollment_track_partition; accented_partition] |}.

(** An active enrollment row whose mode is the empty string. *)
Definition empty_mode_learner : Setup :=
  gated_course None false (Some "", Some true) false true.

(** A course whose partitions leave id 51 free. *)
Definition plain_course : Course :=
  {| course_id := course_key;
     user_partitions := [enrollment_track_partition] |}.

(** Gating flag off, the learner's enrollment row found by user and course. *)
Definition flag_off_enrolled (config : CourseDurationLimitConfig) : Setup :=
  {| s_masquerade := None; s_specific_student := false;
     s_gating_flag := false; s_studio_flag := false;
     s_modes := [audit_mode; verified_mode];
     s_enrollment_mode := (Some "audit", Some true);
     s_enrollment := Some january_enrollment;
     s_ecommerce := false; s_scheme_registered := true;
     s_config := config |}.

End Scenario.

(** ** Facts about computations *)

Module EffFacts.

Lemma bind_consult {A B : Type} (c : collaborator) (a : A) (f : A → eff B) :
  consult c a ≫= f = (Consult c :: trace (f a), result (f a)).
Proof. unfold consult, mbind, eff_bind, trace, result. by destruct (f a). Qed.

Lemma bind_ret {A B : Type} (a : A) (f : A → eff B) : mret a ≫= f = f a.
Proof. unfold mret, eff_ret, mbind, eff_bind. by destruct (f a). Qed.

Lemma bind_log {B : Type} (l : level) (msg : string) (f : unit → eff B) :
  log l msg ≫= f = (Logged l msg :: trace (f tt), result (f tt)).
Proof. unfold log, mbind, eff_bind, trace, result. by destruct (f tt). Qed.

Lemma bind_raise {A B : Type} (e : exn) (f : A → eff B) :
  raise e ≫= f = raise e.
Proof. reflexivity. Qed.

Lemma bind_returned {A B : Type} (t : list event) (a : A) (f : A → eff B) :
  (t, Returned a) ≫= f = ((t ++ trace (f a))%list, result (f a)).
Proof. unfold mbind, eff_bind, trace, result. by destruct (f a). Qed.

Lemma bind_raised {A B : Type} (t : list event) (e : exn) (f : A → eff B) :
  (t, Raised e) ≫= f = (t, Raised e).
Proof. reflexivity. Qed.

Lemma try_except_returned {A : Type} (t : list event) (a : A) catches h :
  try_except (t, Returned a) catches h = (t, Returned a).
Proof. reflexivity. Qed.

Lemma trace_ret {A : Type} (a : A) : trace (mret a : eff A) = [].
Proof. reflexivity. Qed.

Lemma result_ret {A : Type} (a : A) : result (mret a : eff A) = Returned a.
Proof. reflexivity. Qed.

Lemma eff_eta {A : Type} (m : eff A) : m = (trace m, result m).
Proof. by destruct m. Qed.

End EffFacts.

Create Rewrite HintDb eff.
#[local] Hint Rewrite @EffFacts.bind_consult @EffFacts.bind_ret
  @EffFacts.bind_log @EffFacts.bind_raise @EffFacts.bind_returned
  @EffFacts.bind_raised @EffFacts.try_except_returned @EffFacts.trace_ret
  @EffFacts.result_ret : eff.

(** Steps through the binds of a computation whose collaborators' answers
    have been rewritten in. *)
Ltac step_eff := repeat (autorewrite with eff; cbn [trace result fst snd negb app]).

(** ** Properties of partitions.py *)

Module PartitionsProofs.
Import Partitions.

Section with_world.
Context (w : World).

(** Without a masquerade, and with the flag on and a verified mode in
    the course, the decision is taken on the enrollment alone. *)
Lemma get_group_for_user_enrolled course_key user user_partition :
  get_course_masquerade w user course_key = None →
  CONTENT_TYPE_GATING_FLAG w = true →
  has_verified_mode w (modes_dict_of (modes_for_course w course_key true false)) = true →
  ∀ mode_slug,
    enrollment_mode_for_user w user course_key = (Some mode_slug, Some true) →
    mode_slug ≠ "" →
    get_group_for_user w course_key user user_partition =
      match mode_for_course w course_key mode_slug (modes_for_course w course_key true false) with
      | None =>
          ([Consult GetCourseMasquerade; Consult ContentTypeGatingFlag;
            Consult ModesForCourse; Consult HasVerifiedMode;
            Consult EnrollmentModeForUser; Consult ModeForCourse;
            Logged ERROR (unknown_mode_message user mode_slug course_key)],
           Returned (Some FULL_ACCESS))
      | Some _ =>
          ([Consult GetCourseMasquerade; Consult ContentTypeGatingFlag;
            Consult ModesForCourse; Consult HasVerifiedMode;
            Consult EnrollmentModeForUser; Consult ModeForCourse],
           Returned (Some (if String.eqb mode_slug AUDIT
                           then LIMITED_ACCESS else FULL_ACCESS)))
      end.
Proof.
  intros Hmasq Hflag Hverified mode_slug Henrolled Hslug.
  unfold get_group_for_user.
  rewrite Hmasq, Hflag. step_eff.
  rewrite Hverified. step_eff.
  rewrite Henrolled. step_eff.
  assert (truthy (py_and (PyStr mode_slug) (of_opt_bool (Some true))) = true) as ->.
  { unfold py_and. cbn. apply String.eqb_neq in Hslug. by rewrite Hslug. }
  step_eff.
  destruct (mode_for_course w course_key mode_slug _); step_eff.
  - by destruct (String.eqb mode_slug AUDIT).
  - reflexivity.
Qed.

(** C1 (as amended): a user with an active AUDIT enrollment, in a course
    that has a verified mode and in which the audit mode resolves to a known
    course mode, with the gating flag enabled and no masquerade in effect, is
    assigned LIMITED_ACCESS, and nothing is logged. *)
Theorem audit_enrollment_limited_access course_key user user_partition :
  get_course_masquerade w user course_key = None →
  CONTENT_TYPE_GATING_FLAG w = true →
  has_verified_mode w (modes_dict_of (modes_for_course w course_key true false)) = true →
  enrollment_mode_for_user w user course_key = (Some AUDIT, Some true) →
  is_Some (mode_for_course w course_key AUDIT (modes_for_course w course_key true false)) →
  result (get_group_for_user w course_key user user_partition)
    = Returned (Some LIMITED_ACCESS)
  ∧ logs (trace (get_group_for_user w course_key user user_partition)) = [].
Proof.
  intros Hmasq Hflag Hverified Henrolled [mode Hknown].
  rewrite (get_group_for_user_enrolled _ _ _ Hmasq Hflag Hverified AUDIT Henrolled)
    by discriminate.
  rewrite Hknown. by split.
Qed.

(** C2 (as amended): a user with an active enrollment whose mode is a
    non-empty string that does not resolve to a known course mode (gating
    flag enabled, verified mode present, no masquerade) is granted
    FULL_ACCESS, and exactly one record is logged, at error level, naming
    the user, the mode and the course.  The code tests the row with
    [mode_slug and is_active], and an empty mode string counts as false. *)
Theorem unknown_mode_fails_open course_key user user_partition mode_slug :
  get_course_masquerade w user course_key = None →
  CONTENT_TYPE_GATING_FLAG w = true →
  has_verified_mode w (modes_dict_of (modes_for_course w course_key true false)) = true →
  enrollment_mode_for_user w user course_key = (Some mode_slug, Some true) →
  mode_slug ≠ "" →
  mode_for_course w course_key mode_slug (modes_for_course w course_key true false) = None →
  result (get_group_for_user w course_key user user_partition)
    = Returned (Some FULL_ACCESS)
  ∧ logs (trace (get_group_for_user w course_key user user_partition))
    = [Logged ERROR (unknown_mode_message user mode_slug course_key)].
Proof.
  intros Hmasq Hflag Hverified Henrolled Hslug Hunknown.
  rewrite (get_group_for_user_enrolled _ _ _ Hmasq Hflag Hverified
             mode_slug Henrolled Hslug).
  rewrite Hunknown. by split.
Qed.

(** The masquerade step, when the user is not previewing as a group: the
    decision continues with the flag, whatever the rest turns out to be. *)
Lemma get_group_for_user_falls_through course_key user user_partition :
  not_group_masquerading w course_key user →
  CONTENT_TYPE_GATING_FLAG w = false
  ∨ has_verified_mode w (modes_dict_of (modes_for_course w course_key true false)) = false →
  result (get_group_for_user w course_key user user_partition)
    = Returned (Some FULL_ACCESS).
Proof.
  intros Hmasq Hopen. unfold get_group_for_user. step_eff.
  assert (∀ k : bool → eff (option Group),
            result (k false) = Returned (Some FULL_ACCESS) →
            result
              ((if get_course_masquerade w user course_key is Some _
                then specific ← consult IsMasqueradingAsSpecificStudent
                       (is_masquerading_as_specific_student w user course_key);
                     mret (negb specific)
                else mret false) ≫= k) = Returned (Some FULL_ACCESS)) as Hstep.
  { intros k Hk. destruct Hmasq as [-> | Hspecific].
    - by step_eff.
    - destruct (get_course_masquerade w user course_key); step_eff;
        [rewrite Hspecific|]; by step_eff. }
  apply Hstep. step_eff.
  destruct (CONTENT_TYPE_GATING_FLAG w) eqn:Hflag; step_eff; [|done].
  destruct Hopen as [? | ->]; [done|]. by step_eff.
Qed.

(** C4 (as amended): for every user who is not masquerading as a group, and
    for every enrollment state, if the course has no verified mode then the
    user is assigned FULL_ACCESS. *)
Theorem no_verified_mode_full_access course_key user user_partition :
  not_group_masquerading w course_key user →
  has_verified_mode w (modes_dict_of (modes_for_course w course_key true false)) = false →
  result (get_group_for_user w course_key user user_partition)
    = Returned (Some FULL_ACCESS).
Proof.
  intros Hmasq Hnone.
  apply get_group_for_user_falls_through; [done | by right].
Qed.

End with_world.

(** C5: a user who is masquerading in the course, but not as a specific
    student, gets exactly the group of the masquerade state; only the three
    masquerade queries are made, so the flag, the course modes and the
    enrollment store are not consulted, and the answer is the same in any
    world that gives the same masquerade answers. *)
Theorem group_masquerade_returns_masquerade_group
    (w : World) course_key user user_partition masquerade :
  get_course_masquerade w user course_key = Some masquerade →
  is_masquerading_as_specific_student w user course_key = false →
  let run := get_group_for_user w course_key user user_partition in
  result run
    = Returned (get_masquerading_user_group w course_key user user_partition)
  ∧ trace run
    = [Consult GetCourseMasquerade; Consult IsMasqueradingAsSpecificStudent;
       Consult GetMasqueradingUserGroup]
  ∧ (∀ c, c ∈ [ContentTypeGatingFlag; ModesForCourse; HasVerifiedMode;
               EnrollmentModeForUser; ModeForCourse] →
          consulted c (trace run) = false)
  ∧ (∀ w' : World,
       get_course_masquerade w' user course_key = Some masquerade →
       is_masquerading_as_specific_student w' user course_key = false →
       get_masquerading_user_group w' course_key user user_partition
         = get_masquerading_user_group w course_key user user_partition →
       get_group_for_user w' course_key user user_partition = run).
Proof.
  intros Hmasq Hspecific run.
  assert (∀ w0 : World,
            get_course_masquerade w0 user course_key = Some masquerade →
            is_masquerading_as_specific_student w0 user course_key = false →
            get_group_for_user w0 course_key user user_partition
            = ([Consult GetCourseMasquerade;
                Consult IsMasqueradingAsSpecificStudent;
                Consult GetMasqueradingUserGroup],
               Returned (get_masquerading_user_group w0 course_key user
                           user_partition))) as Hrun.
  { intros w0 Hm Hs. unfold get_group_for_user. rewrite Hm. step_eff.
    rewrite Hs. by step_eff. }
  subst run. rewrite (Hrun w Hmasq Hspecific). cbn [trace result fst snd].
  repeat split.
  - intros c Hc. repeat (apply elem_of_cons in Hc as [-> | Hc]; [done|]).
    by apply elem_of_nil in Hc.
  - intros w' Hm Hs Hgroup. rewrite (Hrun w' Hm Hs). by rewrite Hgroup.
Qed.

(** [_get_partition_from_id] returns the first partition of the list that
    carries the id, whenever some partition does. *)
Lemma _get_partition_from_id_found (partitions : list UserPartition) (i : Z) :
  (∃ p, p ∈ partitions ∧ p_id p = i) →
  ∃ first, _get_partition_from_id partitions i = Some first
           ∧ first ∈ partitions ∧ p_id first = i.
Proof.
  induction partitions as [|q rest IH]; intros (p & Hin & Hid).
  - by apply elem_of_nil in Hin.
  - cbn [_get_partition_from_id]. destruct (Z.eqb_spec (p_id q) i) as [Heq | Hne].
    + exists q. repeat split; [apply list_elem_of_here | done].
    + apply elem_of_cons in Hin as [-> | Hin]; [done|].
      destruct IH as (first & Hfound & Hfirst & Hfid); [by exists p|].
      exists first. repeat split; [done | by apply list_elem_of_further | done].
Qed.

Lemma used_ids_spec (partitions : list UserPartition) (i : Z) :
  i ∈ (list_to_set (p_id <$> partitions) : gset Z)
  ↔ ∃ p, p ∈ partitions ∧ p_id p = i.
Proof.
  rewrite elem_of_list_to_set, list_elem_of_fmap.
  split; intros (p & ? & ?); exists p; split; auto.
Qed.

(** A partition returned by [_get_partition_from_id] is in the list and
    carries the id. *)
Lemma _get_partition_from_id_sound (partitions : list UserPartition) (i : Z)
    (found : UserPartition) :
  _get_partition_from_id partitions i = Some found →
  found ∈ partitions ∧ p_id found = i.
Proof.
  induction partitions as [|q rest IH]; cbn [_get_partition_from_id]; [done|].
  destruct (Z.eqb_spec (p_id q) i) as [Hid | Hid].
  - intros [= <-]. split; [apply list_elem_of_here | done].
  - intros Hrest. destruct (IH Hrest). split; [by apply list_elem_of_further | done].
Qed.

(** The collision branch of [create_content_gating_partition]: with a flag
    on, the scheme registered and a partition with id 51 in the course, the
    warning text is formatted from the colliding partition's name and the
    course id; the call logs it and returns None when both are ASCII, and
    ends in UnicodeEncodeError, with nothing logged, when one is not. *)
Lemma create_content_gating_partition_collides (w : World) (course : Course)
    (colliding : UserPartition) :
  CONTENT_TYPE_GATING_FLAG w = true
  ∨ CONTENT_TYPE_GATING_STUDIO_UI_FLAG w = true →
  is_Some (get_scheme w "content_type_gate") →
  _get_partition_from_id (user_partitions course) 51 = Some colliding →
  create_content_gating_partition w course
  = (((if CONTENT_TYPE_GATING_FLAG w then [Consult ContentTypeGatingFlag]
       else [Consult ContentTypeGatingFlag; Consult ContentTypeGatingStudioUiFlag])
      ++ Consult GetScheme ::
         (if is_ascii (p_name colliding) && is_ascii (course_id course)
          then [Logged WARNING (collision_text (p_name colliding)
                                  (course_id course))]
          else []))%list,
     if is_ascii (p_name colliding) && is_ascii (course_id course)
     then Returned None else Raised UnicodeEncodeError).
Proof.
  intros Hflags [content_gate_scheme Hscheme] Hfound.
  assert (51 ∈ (list_to_set (p_id <$> user_partitions course) : gset Z))
    as Hcollides.
  { apply used_ids_spec. exists colliding.
    by apply _get_partition_from_id_sound. }
  unfold create_content_gating_partition, lookup_scheme, collision_message,
    py2_str_of_unicode.
  rewrite Hscheme. change CONTENT_GATING_PARTITION_ID with 51.
  rewrite (bool_decide_eq_true_2 _ Hcollides), Hfound.
  destruct (CONTENT_TYPE_GATING_FLAG w); step_eff;
    [|destruct Hflags as [? | ->]; [done|]; step_eff];
    (destruct (is_ascii (p_name colliding)); step_eff; [|done];
     destruct (is_ascii (course_id course)); by step_eff).
Qed.

(** X27: for a course whose partition list already holds a partition with
    the reserved id 51, with one of the two gating flags enabled and the
    scheme registered, and with the colliding partition's name and the
    course id both ASCII, [create_content_gating_partition] returns None and
    logs exactly one record, a warning naming the colliding partition. *)
Theorem reserved_id_collision_abstains (w : World) (course : Course)
    (colliding : UserPartition) :
  CONTENT_TYPE_GATING_FLAG w = true
  ∨ CONTENT_TYPE_GATING_STUDIO_UI_FLAG w = true →
  is_Some (get_scheme w "content_type_gate") →
  _get_partition_from_id (user_partitions course) 51 = Some colliding →
  is_ascii (p_name colliding) = true →
  is_ascii (course_id course) = true →
  result (create_content_gating_partition w course) = Returned None
  ∧ length (logs_at WARNING (trace (create_content_gating_partition w course))) = 1%nat
  ∧ logs (trace (create_content_gating_partition w course))
    = [Logged WARNING (collision_text (p_name colliding) (course_id course))].
Proof.
  intros Hflags Hscheme Hfound Hname Hcourse.
  rewrite (create_content_gating_partition_collides _ _ _ Hflags Hscheme Hfound).
  rewrite Hname, Hcourse. cbn [andb trace result fst snd].
  by destruct (CONTENT_TYPE_GATING_FLAG w).
Qed.

(** C9: whatever [groups] and [active] are requested, the partition built by
    [create_user_partition] is active and holds exactly the two fixed groups,
    LIMITED_ACCESS (id 1) then FULL_ACCESS (id 2); the other arguments are
    kept as given. *)
Theorem create_user_partition_fixed_groups_and_active
    (id : Z) (name description : string) (groups : option (list Group))
    (parameters : option (gmap string string)) (active : bool) :
  let partition :=
    create_user_partition id name description groups parameters active in
  p_active partition = true
  ∧ p_groups partition = [LIMITED_ACCESS; FULL_ACCESS]
  ∧ group_id <$> p_groups partition = [1; 2]
  ∧ p_id partition = id ∧ p_name partition = name
  ∧ p_description partition = description
  ∧ p_parameters partition = parameters
  ∧ partition = create_user_partition id name description None parameters true.
Proof. cbv zeta. repeat split; reflexivity. Qed.

(** C7 (as amended): for a course whose verified mode is priced at 100, a
    user with an active AUDIT enrollment and the commerce checkout disabled
    for that user, [access_denied_fragment] returns a fragment whose
    [ecommerce_checkout_link] context value is None and whose [min_price]
    context value is the string "100". *)
Theorem access_denied_fragment_checkout_disabled
    (w : World) (block : Block) (user : User) (verified_mode : Mode) :
  modes_for_course_dict w (block_course_key block) !! VERIFIED
    = Some verified_mode →
  min_price verified_mode = 100 →
  enrollment_mode_for_user w user (block_course_key block)
    = (Some AUDIT, Some true) →
  ecommerce_is_enabled w user = false →
  ∃ fragment,
    result (access_denied_fragment w block user) = Returned (Some fragment)
    ∧ context fragment !! "ecommerce_checkout_link" = Some PyNone
    ∧ context fragment !! "min_price" = Some (PyStr "100").
Proof.
  intros Hverified Hprice Henrolled Hcommerce.
  unfold access_denied_fragment, _is_audit_enrollment, _get_checkout_link.
  step_eff. rewrite Hverified, Henrolled, Hcommerce, Hprice. step_eff.
  rewrite bool_decide_eq_true_2 by done. cbn [py_and truthy of_opt_bool].
  step_eff.
  destruct (sku verified_mode); step_eff; cbn [py_and truthy]; step_eff;
    (eexists; split; [reflexivity|]; cbn [context]; split; by vm_compute).
Qed.

(** *** The properties on concrete courses *)

Import Scenario.

Lemma audit_enrollment_limited_access_witness :
  result (get_group_for_user (world_of audit_learner) course_key learner
            gating_partition)
    = Returned (Some LIMITED_ACCESS)
  ∧ logs (trace (get_group_for_user (world_of audit_learner) course_key learner
                   gating_partition)) = [].
Proof.
  apply (audit_enrollment_limited_access (world_of audit_learner)
           course_key learner gating_partition);
    [reflexivity | reflexivity | by vm_compute | reflexivity
    | exists audit_mode; reflexivity].
Defined.

(** C1 as first stated fails: the course offers a verified mode and no audit
    mode, the learner is actively enrolled in audit, the flag is on and
    nobody masquerades; the audit mode does not resolve and the learner is
    granted FULL_ACCESS. *)
Lemma audit_enrollment_verified_only_full_access :
  get_course_masquerade (world_of audit_learner_verified_only) learner course_key
    = None
  ∧ CONTENT_TYPE_GATING_FLAG (world_of audit_learner_verified_only) = true
  ∧ has_verified_mode (world_of audit_learner_verified_only)
      (modes_dict_of
         (modes_for_course (world_of audit_learner_verified_only) course_key
            true false)) = true
  ∧ enrollment_mode_for_user (world_of audit_learner_verified_only) learner
      course_key = (Some AUDIT, Some true)
  ∧ result (get_group_for_user (world_of audit_learner_verified_only) course_key
              learner gating_partition)
    = Returned (Some FULL_ACCESS)
  ∧ result (get_group_for_user (world_of audit_learner_verified_only) course_key
              learner gating_partition)
    ≠ Returned (Some LIMITED_ACCESS).
Proof. repeat split; try by vm_compute. Qed.

Lemma unknown_mode_fails_open_witness :
  result (get_group_for_user (world_of honor_learner) course_key learner
            gating_partition)
    = Returned (Some FULL_ACCESS)
  ∧ logs (trace (get_group_for_user (world_of honor_learner) course_key learner
                   gating_partition))
    = [Logged ERROR (unknown_mode_message learner "honor" course_key)].
Proof.
  apply (unknown_mode_fails_open (world_of honor_learner) course_key learner
           gating_partition "honor");
    [reflexivity | reflexivity | by vm_compute | reflexivity | discriminate
    | reflexivity].
Defined.

(** C2 as first stated fails: the learner's enrollment row is active and its
    mode is the empty string, which no course mode has; the flag is on, the
    course has a verified mode and nobody masquerades.  The row is treated as
    no enrollment: LIMITED_ACCESS, and nothing is logged. *)
Lemma empty_mode_enrollment_limited_access :
  get_course_masquerade (world_of empty_mode_learner) learner course_key = None
  ∧ CONTENT_TYPE_GATING_FLAG (world_of empty_mode_learner) = true
  ∧ has_verified_mode (world_of empty_mode_learner)
      (modes_dict_of
         (modes_for_course (world_of empty_mode_learner) course_key true false))
    = true
  ∧ enrollment_mode_for_user (world_of empty_mode_learner) learner course_key
    = (Some "", Some true)
  ∧ mode_for_course (world_of empty_mode_learner) course_key ""
      (modes_for_course (world_of empty_mode_learner) course_key true false)
    = None
  ∧ result (get_group_for_user (world_of empty_mode_learner) course_key learner
              gating_partition)
    = Returned (Some LIMITED_ACCESS)
  ∧ result (get_group_for_user (world_of empty_mode_learner) course_key learner
              gating_partition)
    ≠ Returned (Some FULL_ACCESS)
  ∧ logs (trace (get_group_for_user (world_of empty_mode_learner) course_key
                   learner gating_partition)) = [].
Proof. repeat split; try by vm_compute. Qed.

Lemma no_verified_mode_full_access_witness :
  result (get_group_for_user (world_of audit_only_course) course_key learner
            gating_partition)
    = Returned (Some FULL_ACCESS).
Proof.
  apply (no_verified_mode_full_access (world_of audit_only_course) course_key
           learner gating_partition);
    [left; reflexivity | by vm_compute].
Defined.

(** C4 as first stated fails: the course has no verified mode, and a staff
    user previewing it as a member of the limited-access group is assigned
    LIMITED_ACCESS. *)
Lemma no_verified_mode_group_masquerade_limited :
  has_verified_mode (world_of staff_as_limited_group)
    (modes_dict_of
       (modes_for_course (world_of staff_as_limited_group) course_key true false))
    = false
  ∧ result (get_group_for_user (world_of staff_as_limited_group) course_key staff
              gating_partition)
    = Returned (Some LIMITED_ACCESS)
  ∧ result (get_group_for_user (world_of staff_as_limited_group) course_key staff
              gating_partition)
    ≠ Returned (Some FULL_ACCESS).
Proof. repeat split; try by vm_compute. Qed.

Lemma group_masquerade_returns_masquerade_group_witness :
  result (get_group_for_user (world_of staff_as_limited_group) course_key staff
            gating_partition)
    = Returned (Some LIMITED_ACCESS)
  ∧ trace (get_group_for_user (world_of staff_as_limited_group) course_key staff
             gating_partition)
    = [Consult GetCourseMasquerade; Consult IsMasqueradingAsSpecificStudent;
       Consult GetMasqueradingUserGroup].
Proof.
  pose proof (group_masquerade_returns_masquerade_group
                (world_of staff_as_limited_group) course_key staff
                gating_partition _ eq_refl eq_refl) as (Hresult & Htrace & _).
  split; [exact Hresult | exact Htrace].
Defined.

Lemma reserved_id_collision_abstains_witness :
  result (create_content_gating_partition (world_of audit_learner) clashing_course)
    = Returned None
  ∧ logs (trace (create_content_gating_partition (world_of audit_learner)
                   clashing_course))
    = [Logged WARNING
         "Can't add 'content_type_gate' partition, as ID 51 is assigned to Imported cohort split in course course-v1:edX+DemoX+Demo_Course."].
Proof.
  destruct (reserved_id_collision_abstains (world_of audit_learner)
              clashing_course imported_partition)
    as (Hresult & _ & Hlogs).
  - left; reflexivity.
  - exists ContentTypeGatingPartitionScheme; reflexivity.
  - reflexivity.
  - reflexivity.
  - reflexivity.
  - split; [exact Hresult | exact Hlogs].
Defined.

(** C8: the claim's conditions hold for a course imported with a partition
    of id 51 named "Groupe évalué" (gating flag on, scheme registered), yet
    [create_content_gating_partition] neither returns None nor logs a
    warning there: formatting the warning text raises UnicodeEncodeError. *)
Theorem reserved_id_collision_non_ascii_name_raises :
  CONTENT_TYPE_GATING_FLAG (world_of audit_learner) = true
  ∧ is_Some (get_scheme (world_of audit_learner) "content_type_gate")
  ∧ accented_partition ∈ user_partitions accented_course
  ∧ p_id accented_partition = 51
  ∧ result (create_content_gating_partition (world_of audit_learner)
              accented_course) = Raised UnicodeEncodeError
  ∧ logs (trace (create_content_gating_partition (world_of audit_learner)
                   accented_course)) = [].
Proof.
  split; [reflexivity|].
  split; [by exists ContentTypeGatingPartitionScheme|].
  split; [apply list_elem_of_further, list_elem_of_here|].
  split; [reflexivity|].
  rewrite (create_content_gating_partition_collides (world_of audit_learner)
             accented_course accented_partition);
    [by vm_compute | by left | by exists ContentTypeGatingPartitionScheme
    | reflexivity].
Qed.

Lemma access_denied_fragment_checkout_disabled_witness :
  ∃ fragment,
    result (access_denied_fragment (world_of audit_learner) block learner)
      = Returned (Some fragment)
    ∧ context fragment !! "ecommerce_checkout_link" = Some PyNone
    ∧ context fragment !! "min_price" = Some (PyStr "100").
Proof.
  apply (access_denied_fragment_checkout_disabled (world_of audit_learner) block
           learner verified_mode);
    [by vm_compute | reflexivity | reflexivity | reflexivity].
Defined.

(** C7 as first stated fails: verified mode priced at 100, active audit
    enrollment, checkout disabled.  The fragment's checkout link is None, not
    the empty string, and its price reads "100", not "100.00". *)
Lemma access_denied_fragment_link_is_none :
  modes_for_course_dict (world_of audit_learner) (block_course_key block)
    !! VERIFIED = Some verified_mode
  ∧ min_price verified_mode = 100
  ∧ enrollment_mode_for_user (world_of audit_learner) learner
      (block_course_key block) = (Some AUDIT, Some true)
  ∧ ecommerce_is_enabled (world_of audit_learner) learner = false
  ∧ ¬ ∃ fragment,
        result (access_denied_fragment (world_of audit_learner) block learner)
          = Returned (Some fragment)
        ∧ context fragment !! "ecommerce_checkout_link" = Some (PyStr "")
        ∧ context fragment !! "min_price" = Some (PyStr "100.00").
Proof.
  repeat split; try by vm_compute.
  intros (fragment & Hresult & Hlink & _).
  vm_compute in Hresult. injection Hresult as <-.
  vm_compute in Hlink. discriminate Hlink.
Qed.

End PartitionsProofs.


(** ** Properties of models.py *)

Module DurationLimitsProofs.
Import DurationLimits.

Section with_world.
Context (w : World).

(** With the flag off, [enabled_as_of_date] is the cast to bool of
    [self.enabled and self.enabled_as_of <= target_date]. *)
Lemma enabled_as_of_date_flag_off self target_date :
  CONTENT_TYPE_GATING_FLAG w = false →
  result (enabled_as_of_date w self target_date) =
    match enabled self with
    | Some true =>
        match enabled_as_of self with
        | Some as_of => Returned (PyBool (date_leb as_of target_date))
        | None => Raised TypeError
        end
    | _ => Returned (PyBool false)
    end.
Proof.
  intros Hflag. unfold enabled_as_of_date, py_date_le. rewrite Hflag. step_eff.
  destruct (enabled self) as [[|]|]; cbn [of_opt_bool truthy]; step_eff;
    try reflexivity.
  destruct (enabled_as_of self); by step_eff.
Qed.

Lemma enabled_as_of_date_flag_on self target_date :
  CONTENT_TYPE_GATING_FLAG w = true →
  result (enabled_as_of_date w self target_date) = Returned (PyBool true).
Proof. intros Hflag. unfold enabled_as_of_date. rewrite Hflag. by step_eff. Qed.

(** [enabled_for_course] hands the resolved configuration and the target
    date (today's UTC date when none is given) to [enabled_as_of_date]. *)
Lemma enabled_for_course_flag_off course_key target_date :
  CONTENT_TYPE_GATING_FLAG w = false →
  result (enabled_for_course w course_key target_date)
  = result (enabled_as_of_date w (current w course_key)
              (default (dt_date (utcnow w)) target_date)).
Proof.
  intros Hflag. unfold enabled_for_course. rewrite Hflag. step_eff.
  destruct target_date; by step_eff.
Qed.

(** C3 (as amended): with the gating flag disabled, a call that supplies
    both the enrollment and the user (or the course key), or that supplies
    neither an enrollment nor a complete user and course key pair, raises
    ValueError instead of returning a boolean. *)
Theorem enabled_for_enrollment_invalid_arguments
    (enrollment : option Enrollment) (user : option User)
    (course_key : option CourseKey) :
  CONTENT_TYPE_GATING_FLAG w = false →
  (enrollment ≠ None ∧ (user ≠ None ∨ course_key ≠ None))
  ∨ (enrollment = None ∧ (user = None ∨ course_key = None)) →
  result (enabled_for_enrollment w enrollment user course_key)
  = Raised (ValueError
      (if enrollment is Some _
       then "Specify enrollment or user/course_key, but not both"
       else "Both user and course_key must be specified if no enrollment is provided")).
Proof.
  intros Hflag Hargs. unfold enabled_for_enrollment. rewrite Hflag. step_eff.
  destruct enrollment as [e|], user as [u|], course_key as [k|];
    try reflexivity; exfalso;
    destruct Hargs as [[He [H | H]] | [He [H | H]]]; congruence.
Qed.

(** C6 (as amended): [enabled_for_course] returns True when the gating flag
    is enabled; otherwise, on the configuration resolved for the course and
    the target date (today's UTC date when omitted), and unless that
    configuration is enabled with a null [enabled_as_of], it returns the
    boolean [enabled AND enabled_as_of <= target_date], an unset [enabled]
    counting as false; whatever it returns is a boolean, never None, and it
    does return on every configuration that passes [clean]. *)
Theorem enabled_for_course_value (course_key : CourseKey)
    (target_date : option date) :
  let config := current w course_key in
  let target := default (dt_date (utcnow w)) target_date in
  let answer := result (enabled_for_course w course_key target_date) in
  (CONTENT_TYPE_GATING_FLAG w = true → answer = Returned (PyBool true))
  ∧ (CONTENT_TYPE_GATING_FLAG w = false →
     ∀ as_of, enabled_as_of config = Some as_of →
       answer = Returned (PyBool (spec_enabled_on (enabled config) as_of target)))
  ∧ (CONTENT_TYPE_GATING_FLAG w = false →
     enabled config ≠ Some true → answer = Returned (PyBool false))
  ∧ (∀ v, answer = Returned v → ∃ b : bool, v = PyBool b)
  ∧ (result (clean config) = Returned tt → ∃ b : bool, answer = Returned (PyBool b)).
Proof.
  intros config target answer. subst answer.
  destruct (CONTENT_TYPE_GATING_FLAG w) eqn:Hflag.
  - assert (result (enabled_for_course w course_key target_date)
            = Returned (PyBool true)) as ->.
    { unfold enabled_for_course. rewrite Hflag. by step_eff. }
    repeat split; try done; [intros v [= <-] | intros _]; by exists true.
  - rewrite (enabled_for_course_flag_off _ _ Hflag).
    rewrite (enabled_as_of_date_flag_off _ _ Hflag).
    fold config target. unfold spec_enabled_on, clean.
    repeat split; try done.
    + intros _ as_of ->. by destruct (enabled config) as [[|]|].
    + intros _ Hunset. by destruct (enabled config) as [[|]|].
    + intros v. destruct (enabled config) as [[|]|];
        [destruct (enabled_as_of config)|..]; intros [= <-]; eauto.
    + destruct (enabled config) as [[|]|];
        [destruct (enabled_as_of config)|..]; cbn; intros Hclean;
        try discriminate Hclean; eauto.
Qed.

(** C10 (as amended): for every target date, on a configuration with
    [enabled] true and [enabled_as_of] null, [enabled_as_of_date] returns
    True when the gating flag is enabled and raises TypeError when it is
    disabled: a null date is not ordered against a date. *)
Theorem enabled_with_null_date (self : CourseDurationLimitConfig)
    (target_date : date) :
  enabled self = Some true →
  enabled_as_of self = None →
  result (enabled_as_of_date w self target_date)
  = if CONTENT_TYPE_GATING_FLAG w then Returned (PyBool true)
    else Raised TypeError.
Proof.
  intros Henabled Hnull.
  destruct (CONTENT_TYPE_GATING_FLAG w) eqn:Hflag.
  - by apply enabled_as_of_date_flag_on.
  - rewrite (enabled_as_of_date_flag_off _ _ Hflag). by rewrite Henabled, Hnull.
Qed.

End with_world.

(** *** The properties on concrete configurations *)

Import Scenario.

Lemma enabled_for_enrollment_invalid_arguments_witness :
  result (enabled_for_enrollment (world_of (flag_off unset_config))
            (Some january_enrollment) (Some learner) None)
    = Raised (ValueError "Specify enrollment or user/course_key, but not both")
  ∧ result (enabled_for_enrollment (world_of (flag_off unset_config))
              None (Some learner) None)
    = Raised (ValueError
        "Both user and course_key must be specified if no enrollment is provided").
Proof.
  split.
  - apply (enabled_for_enrollment_invalid_arguments
             (world_of (flag_off unset_config))
             (Some january_enrollment) (Some learner) None);
      [reflexivity | left; split; [discriminate | left; discriminate]].
  - apply (enabled_for_enrollment_invalid_arguments
             (world_of (flag_off unset_config)) None (Some learner) None);
      [reflexivity | right; split; [reflexivity | right; reflexivity]].
Defined.

(** C3 as first stated fails: with the gating flag enabled, a call that
    supplies both an enrollment and a user returns True, and a call that
    supplies nothing returns True as well. *)
Lemma enabled_for_enrollment_flag_on_returns_true :
  CONTENT_TYPE_GATING_FLAG (world_of audit_learner) = true
  ∧ result (enabled_for_enrollment (world_of audit_learner)
              (Some january_enrollment) (Some learner) None)
    = Returned (PyBool true)
  ∧ result (enabled_for_enrollment (world_of audit_learner) None None None)
    = Returned (PyBool true)
  ∧ ¬ ∃ msg,
        result (enabled_for_enrollment (world_of audit_learner)
                  (Some january_enrollment) (Some learner) None)
        = Raised (ValueError msg).
Proof.
  repeat split; try reflexivity. intros [msg Hraised]. discriminate Hraised.
Qed.

Lemma enabled_for_course_value_witness :
  result (enabled_for_course (world_of (flag_off limits_since_december))
            course_key None)
    = Returned (PyBool true)
  ∧ result (enabled_for_course (world_of (flag_off limits_since_december))
              course_key (Some {| year := 2018; month := 11; day := 30 |}))
    = Returned (PyBool false)
  ∧ result (enabled_for_course (world_of (flag_off unset_config)) course_key None)
    = Returned (PyBool false)
  ∧ result (enabled_for_course (world_of audit_learner) course_key None)
    = Returned (PyBool true).
Proof.
  split; [|split; [|split]].
  - exact (proj1 (proj2 (enabled_for_course_value
                           (world_of (flag_off limits_since_december))
                           course_key None))
             eq_refl {| year := 2018; month := 12; day := 1 |} eq_refl).
  - exact (proj1 (proj2 (enabled_for_course_value
                           (world_of (flag_off limits_since_december))
                           course_key
                           (Some {| year := 2018; month := 11; day := 30 |})))
             eq_refl {| year := 2018; month := 12; day := 1 |} eq_refl).
  - apply (proj1 (proj2 (proj2 (enabled_for_course_value
                                  (world_of (flag_off unset_config))
                                  course_key None))));
      [reflexivity | discriminate].
  - exact (proj1 (enabled_for_course_value (world_of audit_learner)
                    course_key None) eq_refl).
Defined.

(** C6 as first stated fails: with the gating flag disabled and a resolved
    configuration that is enabled with a null date, [enabled_for_course]
    returns no boolean, for a given target date and for the default one: it
    raises TypeError. *)
Lemma enabled_for_course_null_date_raises :
  CONTENT_TYPE_GATING_FLAG (world_of (flag_off enabled_without_date)) = false
  ∧ current (world_of (flag_off enabled_without_date)) course_key
    = enabled_without_date
  ∧ result (enabled_for_course (world_of (flag_off enabled_without_date))
              course_key None) = Raised TypeError
  ∧ result (enabled_for_course (world_of (flag_off enabled_without_date))
              course_key (Some {| year := 2019; month := 1; day := 2 |}))
    = Raised TypeError
  ∧ ¬ ∃ answer,
        result (enabled_for_course (world_of (flag_off enabled_without_date))
                  course_key None) = Returned answer.
Proof.
  repeat split; try reflexivity. intros [answer Hreturned].
  discriminate Hreturned.
Qed.

Lemma enabled_with_null_date_witness :
  result (enabled_as_of_date (world_of (flag_off enabled_without_date))
            enabled_without_date {| year := 2019; month := 1; day := 2 |})
    = Raised TypeError
  ∧ result (enabled_as_of_date (world_of audit_learner)
              enabled_without_date {| year := 2019; month := 1; day := 2 |})
    = Returned (PyBool true).
Proof.
  split.
  - apply (enabled_with_null_date (world_of (flag_off enabled_without_date))
             enabled_without_date {| year := 2019; month := 1; day := 2 |});
      reflexivity.
  - apply (enabled_with_null_date (world_of audit_learner)
             enabled_without_date {| year := 2019; month := 1; day := 2 |});
      reflexivity.
Defined.

(** C10 as first stated fails: with the gating flag disabled, a resolved
    configuration that is enabled with a null date makes
    [enabled_as_of_date] raise TypeError; it does not return True. *)
Lemma enabled_with_null_date_raises :
  enabled enabled_without_date = Some true
  ∧ enabled_as_of enabled_without_date = None
  ∧ result (enabled_as_of_date (world_of (flag_off enabled_without_date))
              enabled_without_date {| year := 2019; month := 1; day := 2 |})
    = Raised TypeError
  ∧ result (enabled_as_of_date (world_of (flag_off enabled_without_date))
              enabled_without_date {| year := 2019; month := 1; day := 2 |})
    ≠ Returned (PyBool true).
Proof. repeat split; try reflexivity. discriminate. Qed.

End DurationLimitsProofs.

(** ** Further properties of partitions.py *)

(** Case analysis on every answer [get_group_for_user] may ask for. *)
Ltac group_cases w course_key user :=
  unfold Partitions.get_group_for_user;
  destruct (get_course_masquerade w user course_key) eqn:?; step_eff;
  try (destruct (is_masquerading_as_specific_student w user course_key) eqn:?;
       step_eff);
  try (destruct (CONTENT_TYPE_GATING_FLAG w) eqn:?; step_eff);
  try (destruct (has_verified_mode w _) eqn:?; step_eff);
  try (destruct (enrollment_mode_for_user w user course_key)
         as [[?mode_slug|] [[|]|]] eqn:?; step_eff);
  unfold py_and; cbn [truthy of_opt_bool];
  try (match goal with
       | |- context [String.eqb ?s ""] =>
           let E := fresh "Hempty" in
           destruct (String.eqb s "") eqn:E; cbn [negb truthy];
           rewrite ?E; cbn [negb]; step_eff;
           [apply String.eqb_eq in E | apply String.eqb_neq in E]
       end);
  try (match goal with
       | |- context [mode_for_course w course_key ?s ?l] =>
           destruct (mode_for_course w course_key s l) eqn:?; step_eff
       end);
  try (match goal with
       | |- context [String.eqb ?s Platform.AUDIT] =>
           destruct (String.eqb_spec s Platform.AUDIT); step_eff
       end).

Module PartitionsMore.
Import Partitions.

Section with_world.
Context (w : World).


(** X2: outside a group masquerade the answer is always one of the two
    fixed groups: the call does not raise and does not return None. *)
Theorem get_group_for_user_two_groups course_key user user_partition :
  not_group_masquerading w course_key user →
  result (get_group_for_user w course_key user user_partition)
    = Returned (Some LIMITED_ACCESS)
  ∨ result (get_group_for_user w course_key user user_partition)
    = Returned (Some FULL_ACCESS).
Proof.
  intros [Hnone | Hspecific]; group_cases w course_key user;
    try congruence; auto.
Qed.

(** X3: with the gating flag off, a user who is not masquerading as a group
    gets FULL_ACCESS; the course modes and the enrollment store are not
    asked, and nothing is logged. *)
Theorem flag_off_full_access course_key user user_partition :
  not_group_masquerading w course_key user →
  CONTENT_TYPE_GATING_FLAG w = false →
  result (get_group_for_user w course_key user user_partition)
    = Returned (Some FULL_ACCESS)
  ∧ logs (trace (get_group_for_user w course_key user user_partition)) = []
  ∧ ∀ asked, asked ∈ [ModesForCourse; HasVerifiedMode; EnrollmentModeForUser;
                      ModeForCourse] →
         consulted asked
           (trace (get_group_for_user w course_key user user_partition))
         = false.
Proof.
  intros [Hnone | Hspecific] Hflag; group_cases w course_key user;
    try congruence; (split; [done | split; [done|]]);
    intros asked Hc; repeat (apply elem_of_cons in Hc as [-> | Hc]; [done|]);
    by apply elem_of_nil in Hc.
Qed.

(** X4: for a user who is not masquerading as a group, with the flag on and
    a verified mode in the course, the absence of an active enrollment (no
    enrollment row, an empty mode, or a row that is not active) gives
    LIMITED_ACCESS; the mode is not resolved and nothing is logged. *)
Theorem no_active_enrollment_limited_access
    course_key user user_partition mode_slug is_active :
  not_group_masquerading w course_key user →
  CONTENT_TYPE_GATING_FLAG w = true →
  has_verified_mode w (modes_dict_of (modes_for_course w course_key true false))
    = true →
  enrollment_mode_for_user w user course_key = (mode_slug, is_active) →
  mode_slug = None ∨ mode_slug = Some "" ∨ is_active ≠ Some true →
  result (get_group_for_user w course_key user user_partition)
    = Returned (Some LIMITED_ACCESS)
  ∧ logs (trace (get_group_for_user w course_key user user_partition)) = []
  ∧ consulted ModeForCourse
      (trace (get_group_for_user w course_key user user_partition)) = false.
Proof.
  intros [Hnone | Hspecific] Hflag Hverified Henrollment Hinactive;
    group_cases w course_key user; try congruence; try done;
    exfalso; destruct Hinactive as [-> | [-> | Hrow]]; congruence.
Qed.

(** X5: for a user who is not masquerading as a group, with the flag on and
    a verified mode in the course, an active enrollment in a mode that is a
    non-empty string other than audit and that the course knows gives
    FULL_ACCESS, and nothing is logged. *)
Theorem known_paid_mode_full_access
    course_key user user_partition mode_slug :
  not_group_masquerading w course_key user →
  CONTENT_TYPE_GATING_FLAG w = true →
  has_verified_mode w (modes_dict_of (modes_for_course w course_key true false))
    = true →
  enrollment_mode_for_user w user course_key = (Some mode_slug, Some true) →
  mode_slug ≠ "" →
  mode_slug ≠ AUDIT →
  is_Some (mode_for_course w course_key mode_slug
             (modes_for_course w course_key true false)) →
  result (get_group_for_user w course_key user user_partition)
    = Returned (Some FULL_ACCESS)
  ∧ logs (trace (get_group_for_user w course_key user user_partition)) = [].
Proof.
  intros [Hnone | Hspecific] Hflag Hverified Henrollment Hslug Haudit [m Hknown];
    group_cases w course_key user; try congruence; done.
Qed.

(** The three ways [create_content_gating_partition] can end, as one
    equation on the answers of the flags and of the scheme registry. *)
Lemma create_content_gating_partition_run (course : Course) :
  create_content_gating_partition w course =
    ((if CONTENT_TYPE_GATING_FLAG w then [Consult ContentTypeGatingFlag]
      else [Consult ContentTypeGatingFlag; Consult ContentTypeGatingStudioUiFlag])
     ++ (if negb (CONTENT_TYPE_GATING_FLAG w || CONTENT_TYPE_GATING_STUDIO_UI_FLAG w)
         then []
         else
           Consult GetScheme ::
           match get_scheme w "content_type_gate" with
           | None => [Logged WARNING no_scheme_message]
           | Some _ =>
               match _get_partition_from_id (user_partitions course) 51 with
               | Some colliding =>
                   if is_ascii (p_name colliding) && is_ascii (course_id course)
                   then [Logged WARNING (collision_text (p_name colliding)
                                           (course_id course))]
                   else []
               | None => []
               end
           end),
     if negb (CONTENT_TYPE_GATING_FLAG w || CONTENT_TYPE_GATING_STUDIO_UI_FLAG w)
     then Returned None
     else
       match get_scheme w "content_type_gate",
             _get_partition_from_id (user_partitions course) 51 with
       | Some content_gate_scheme, None =>
           Returned
             (Some (scheme_create_user_partition content_gate_scheme 51
                      (ugettext w "Feature-based Enrollments")
                      (ugettext w "Partition for segmenting users by access to gated content types")
                      None (Some {["course_id" := course_id course]}) true))
       | Some _, Some colliding =>
           if is_ascii (p_name colliding) && is_ascii (course_id course)
           then Returned None else Raised UnicodeEncodeError
       | None, _ => Returned None
       end)%list.
Proof.
  destruct (CONTENT_TYPE_GATING_FLAG w || CONTENT_TYPE_GATING_STUDIO_UI_FLAG w)
    eqn:Hflags; cbn [negb].
  - apply orb_true_iff in Hflags.
    destruct (get_scheme w "content_type_gate") as [content_gate_scheme|]
      eqn:Hscheme.
    + destruct (_get_partition_from_id (user_partitions course) 51)
        as [colliding|] eqn:Hfound.
      * by apply PartitionsProofs.create_content_gating_partition_collides.
      * unfold create_content_gating_partition, lookup_scheme.
        rewrite Hscheme. change CONTENT_GATING_PARTITION_ID with 51.
        rewrite bool_decide_eq_false_2.
        -- destruct (CONTENT_TYPE_GATING_FLAG w); step_eff; [done|].
           destruct Hflags as [? | ->]; [done|]. by step_eff.
        -- intros Hcollides. apply PartitionsProofs.used_ids_spec in Hcollides.
           destruct (PartitionsProofs._get_partition_from_id_found _ _ Hcollides)
             as (? & ? & _). congruence.
    + unfold create_content_gating_partition, lookup_scheme. rewrite Hscheme.
      destruct (CONTENT_TYPE_GATING_FLAG w); step_eff;
        [|destruct Hflags as [? | ->]; [done|]; step_eff];
        cbn [try_except catches_UserPartitionError app]; by step_eff.
  - apply orb_false_iff in Hflags as [Hflag Hstudio].
    unfold create_content_gating_partition. rewrite Hflag, Hstudio.
    by step_eff.
Qed.

(** X7: [create_content_gating_partition] ends in one of three ways: it
    returns a partition, with nothing logged; it returns None, with nothing
    or exactly one warning logged; or it raises UnicodeEncodeError, with
    nothing logged.  The last happens exactly when a flag is on, the scheme is
    registered and the first partition with id 51 has a non-ASCII name or
    the course id is not ASCII.  No other exception leaves the function. *)
Theorem create_content_gating_partition_outcomes (course : Course) :
  ((∃ answer,
      result (create_content_gating_partition w course) = Returned answer
      ∧ (logs (trace (create_content_gating_partition w course)) = []
         ∨ answer = None
           ∧ ∃ msg, logs (trace (create_content_gating_partition w course))
                    = [Logged WARNING msg]))
   ∨ result (create_content_gating_partition w course) = Raised UnicodeEncodeError
     ∧ logs (trace (create_content_gating_partition w course)) = [])
  ∧ (result (create_content_gating_partition w course) = Raised UnicodeEncodeError
     ↔ (CONTENT_TYPE_GATING_FLAG w = true
        ∨ CONTENT_TYPE_GATING_STUDIO_UI_FLAG w = true)
       ∧ is_Some (get_scheme w "content_type_gate")
       ∧ ∃ colliding,
           _get_partition_from_id (user_partitions course) 51 = Some colliding
           ∧ is_ascii (p_name colliding) && is_ascii (course_id course) = false).
Proof.
  rewrite create_content_gating_partition_run. cbn [trace result fst snd].
  destruct (CONTENT_TYPE_GATING_FLAG w) eqn:Hflag,
    (CONTENT_TYPE_GATING_STUDIO_UI_FLAG w) eqn:Hstudio,
    (get_scheme w "content_type_gate") as [content_gate_scheme|] eqn:Hscheme,
    (_get_partition_from_id (user_partitions course) 51) as [colliding|]
      eqn:Hfound;
    cbn [orb negb];
    try (destruct (is_ascii (p_name colliding) && is_ascii (course_id course))
           eqn:Hascii);
    (split;
     [first
        [ right; split; reflexivity
        | left; eexists; split; [reflexivity|];
          first [ left; reflexivity
                | right; split; [reflexivity|]; eexists; reflexivity ] ]
     |split;
      [first
         [ discriminate
         | intros _; split; [first [by left | by right]|];
           split; [by eexists|]; by eexists ]
      |intros (Hflags & [? Hregistered] & other & Hother & Hnot_ascii);
       first
         [ discriminate Hregistered
         | discriminate Hother
         | destruct Hflags; discriminate
         | injection Hother as <-; congruence
         | reflexivity ]]]).
Qed.

(** X8: a partition is returned exactly when one of the two flags is on,
    the scheme is registered and no partition of the course carries id 51. *)
Theorem create_content_gating_partition_succeeds_iff (course : Course) :
  (∃ partition,
     result (create_content_gating_partition w course)
     = Returned (Some partition))
  ↔ (CONTENT_TYPE_GATING_FLAG w = true
     ∨ CONTENT_TYPE_GATING_STUDIO_UI_FLAG w = true)
    ∧ is_Some (get_scheme w "content_type_gate")
    ∧ ∀ q, q ∈ user_partitions course → p_id q ≠ 51.
Proof.
  rewrite create_content_gating_partition_run. cbn [trace result fst snd].
  split.
  - intros [partition Hsome].
    destruct (CONTENT_TYPE_GATING_FLAG w) eqn:Hflag,
      (CONTENT_TYPE_GATING_STUDIO_UI_FLAG w) eqn:Hstudio,
      (get_scheme w "content_type_gate") eqn:Hscheme,
      (_get_partition_from_id (user_partitions course) 51) eqn:Hfree;
      cbn [orb negb] in Hsome; try discriminate Hsome;
      try (destruct (is_ascii _ && is_ascii _); discriminate Hsome);
      (split; [auto | split; [eauto|]]);
      intros q Hq Hid;
      destruct (PartitionsProofs._get_partition_from_id_found
                  (user_partitions course) 51) as (? & ? & _);
      eauto; congruence.
  - intros (Hflags & [content_gate_scheme Hscheme] & Hfree).
    rewrite Hscheme.
    destruct (_get_partition_from_id (user_partitions course) 51) eqn:Hfound.
    + exfalso. clear -Hfound Hfree.
      induction (user_partitions course) as [|q rest IH]; [done|].
      cbn in Hfound. destruct (Z.eqb_spec (p_id q) 51) as [Hid|].
      * by apply (Hfree q); [apply list_elem_of_here|].
      * apply IH; [|done]. intros ? ?. by apply Hfree, list_elem_of_further.
    + destruct Hflags as [-> | ->]; [|rewrite orb_true_r]; cbn; eauto.
Qed.

(** X9: with neither flag on, None is returned after the two flags have
    been read: the scheme registry is not asked and nothing is logged. *)
Theorem create_content_gating_partition_flags_off (course : Course) :
  CONTENT_TYPE_GATING_FLAG w = false →
  CONTENT_TYPE_GATING_STUDIO_UI_FLAG w = false →
  create_content_gating_partition w course
  = ([Consult ContentTypeGatingFlag; Consult ContentTypeGatingStudioUiFlag],
     Returned None).
Proof.
  intros Hflag Hstudio. rewrite create_content_gating_partition_run.
  by rewrite Hflag, Hstudio.
Qed.

(** X10: with a flag on and no scheme registered under "content_type_gate",
    None is returned and the one record logged is the warning that the
    scheme is missing, whatever the partitions of the course. *)
Theorem create_content_gating_partition_scheme_missing (course : Course) :
  CONTENT_TYPE_GATING_FLAG w = true
  ∨ CONTENT_TYPE_GATING_STUDIO_UI_FLAG w = true →
  get_scheme w "content_type_gate" = None →
  result (create_content_gating_partition w course) = Returned None
  ∧ logs (trace (create_content_gating_partition w course))
    = [Logged WARNING no_scheme_message].
Proof.
  intros Hflags Hscheme. rewrite create_content_gating_partition_run.
  rewrite Hscheme. cbn [trace result fst snd].
  destruct Hflags as [-> | ->]; [|rewrite orb_true_r];
    cbn; [done|]. by destruct (CONTENT_TYPE_GATING_FLAG w).
Qed.

(** X11: when the registered scheme is [ContentTypeGatingPartitionScheme],
    a partition that is returned has id 51, is active, holds the two fixed
    groups and the course id as its "course_id" parameter, and its id is
    carried by no partition of the course: adding it keeps ids distinct. *)
Theorem created_partition_is_fresh (course : Course) (partition : UserPartition) :
  get_scheme w "content_type_gate" = Some ContentTypeGatingPartitionScheme →
  result (create_content_gating_partition w course) = Returned (Some partition) →
  p_id partition = 51
  ∧ p_active partition = true
  ∧ p_groups partition = [LIMITED_ACCESS; FULL_ACCESS]
  ∧ (p_parameters partition ≫= (.!! "course_id")) = Some (course_id course)
  ∧ (∀ q, q ∈ user_partitions course → p_id q ≠ p_id partition)
  ∧ (NoDup (p_id <$> user_partitions course) →
     NoDup (p_id <$> (user_partitions course ++ [partition])%list)).
Proof.
  intros Hscheme Hcreated.
  assert (∀ q, q ∈ user_partitions course → p_id q ≠ 51) as Hfree.
  { apply create_content_gating_partition_succeeds_iff. eauto. }
  rewrite create_content_gating_partition_run in Hcreated.
  rewrite Hscheme in Hcreated. cbn [trace result fst snd] in Hcreated.
  destruct (negb _); [discriminate Hcreated|].
  destruct (_get_partition_from_id _ _);
    [destruct (is_ascii _ && is_ascii _); discriminate Hcreated|].
  injection Hcreated as <-. cbn.
  repeat split; try done.
  intros Hdistinct. rewrite fmap_app. apply NoDup_app. split; [done|]. split.
  - intros i Hi Hnew. apply list_elem_of_fmap in Hi as (q & -> & Hq).
    apply list_elem_of_singleton in Hnew. by apply (Hfree q).
  - apply NoDup_singleton.
Qed.

End with_world.

(** X6: masquerading as a specific student is decided like no masquerade
    at all: in two worlds that give the same flag, course modes and
    enrollment answers, one with that masquerade and one without any, the
    group and the log records are the same. *)
Theorem specific_student_masquerade_is_transparent
    (w w' : World) course_key user user_partition :
  is_masquerading_as_specific_student w user course_key = true →
  get_course_masquerade w' user course_key = None →
  CONTENT_TYPE_GATING_FLAG w' = CONTENT_TYPE_GATING_FLAG w →
  modes_for_course w' course_key true false
    = modes_for_course w course_key true false →
  has_verified_mode w' (modes_dict_of (modes_for_course w course_key true false))
    = has_verified_mode w (modes_dict_of (modes_for_course w course_key true false)) →
  enrollment_mode_for_user w' user course_key
    = enrollment_mode_for_user w user course_key →
  (∀ mode_slug,
     mode_for_course w' course_key mode_slug
       (modes_for_course w course_key true false)
     = mode_for_course w course_key mode_slug
         (modes_for_course w course_key true false)) →
  result (get_group_for_user w course_key user user_partition)
    = result (get_group_for_user w' course_key user user_partition)
  ∧ logs (trace (get_group_for_user w course_key user user_partition))
    = logs (trace (get_group_for_user w' course_key user user_partition)).
Proof.
  intros Hspecific Hnone Hflag Hmodes Hverified Henrollment Hresolve.
  unfold get_group_for_user. rewrite Hnone, Hspecific. step_eff. rewrite Hflag.
  destruct (get_course_masquerade w user course_key); step_eff;
    (destruct (CONTENT_TYPE_GATING_FLAG w); step_eff; [|done];
     rewrite Hmodes, Hverified;
     destruct (has_verified_mode w _); step_eff; [|done];
     rewrite Henrollment;
     destruct (enrollment_mode_for_user w user course_key)
       as [[mode_slug|] is_active]; step_eff; [|done];
     destruct (truthy _); step_eff; [|done];
     rewrite Hresolve;
     destruct (mode_for_course w course_key mode_slug _); step_eff; [|done];
     by destruct (String.eqb mode_slug AUDIT)).
Qed.

(** X12: [_get_partition_from_id] returns the first partition of the list
    that carries the id, and None exactly when no partition carries it. *)
Theorem _get_partition_from_id_first_match
    (partitions : list UserPartition) (i : Z) :
  (∀ p, _get_partition_from_id partitions i = Some p
        ↔ ∃ before after,
            partitions = (before ++ p :: after)%list
            ∧ p_id p = i
            ∧ ∀ q, q ∈ before → p_id q ≠ i)
  ∧ (_get_partition_from_id partitions i = None
     ↔ ∀ q, q ∈ partitions → p_id q ≠ i).
Proof.
  induction partitions as [|q rest [IHsome IHnone]]; cbn [_get_partition_from_id].
  - split; [intros p; split; [done|] | split; [|done]].
    + intros (before & after & Happ & _). by destruct before.
    + intros _ q Hq. by apply elem_of_nil in Hq.
  - destruct (Z.eqb_spec (p_id q) i) as [Hid | Hid]; split.
    + intros p. split.
      * intros [= <-]. exists [], rest. repeat split; [done|].
        intros ? Hin. by apply elem_of_nil in Hin.
      * intros (before & after & Happ & Hp & Hbefore).
        destruct before as [|b before]; cbn in Happ.
        -- by injection Happ as <- _.
        -- injection Happ as <- _. exfalso.
           by apply (Hbefore q); [apply list_elem_of_here|].
    + split; [done|]. intros Hnone. exfalso.
      by apply (Hnone q); [apply list_elem_of_here|].
    + intros p. rewrite IHsome. split.
      * intros (before & after & -> & Hp & Hbefore).
        exists (q :: before), after. repeat split; [done|].
        intros r Hr. apply elem_of_cons in Hr as [-> | Hr]; auto.
      * intros (before & after & Happ & Hp & Hbefore).
        destruct before as [|b before]; cbn in Happ.
        -- injection Happ as -> _. done.
        -- injection Happ as <- ->. exists before, after.
           repeat split; [done|]. intros r Hr.
           by apply Hbefore, list_elem_of_further.
    + rewrite IHnone. split.
      * intros Hrest r Hr. apply elem_of_cons in Hr as [-> | Hr]; auto.
      * intros Hall r Hr. by apply Hall, list_elem_of_further.
Qed.

(** X13: in the dict built from the modes of a course, a slug maps to the
    last mode of the list that has this slug. *)
Theorem modes_dict_of_lookup (modes : list Mode) (mode_slug : string) :
  modes_dict_of modes !! mode_slug
  = last (filter (λ mode, slug mode = mode_slug) modes).
Proof.
  unfold modes_dict_of.
  assert (∀ d : gmap string Mode,
            foldl (λ d mode, <[slug mode := mode]> d) d modes !! mode_slug
            = match last (filter (λ mode, slug mode = mode_slug) modes) with
              | Some mode => Some mode
              | None => d !! mode_slug
              end) as Hfold.
  { induction modes as [|m rest IH]; intros d; [done|].
    cbn [foldl]. rewrite IH, filter_cons.
    destruct (decide (slug m = mode_slug)) as [Hm | Hm].
    - destruct (filter _ rest) as [|r kept] eqn:Hkept.
      + cbn. by rewrite <- Hm, lookup_insert_eq.
      + change (last (m :: r :: kept)) with (last (r :: kept)).
        destruct (last (r :: kept)) eqn:Hlast; [done|].
        by apply last_None in Hlast.
    - destruct (last _); [done|]. by rewrite lookup_insert_ne. }
  rewrite Hfold, lookup_empty. by destruct (last _).
Qed.

Section with_world_blocks.
Context (w : World).

(** X14: [access_denied_message] returns its message exactly for an active
    audit enrollment in the block's course, and None for every other
    enrollment state. *)
Theorem access_denied_message_value (block : Block) (user : User) :
  result (access_denied_message w block user)
  = Returned
      (if bool_decide (enrollment_mode_for_user w user (block_course_key block)
                       = (Some AUDIT, Some true))
       then Some "Graded assessments are available to Verified Track learners. Upgrade to Unlock."
       else None).
Proof.
  unfold access_denied_message, _is_audit_enrollment. step_eff.
  destruct (enrollment_mode_for_user w user (block_course_key block))
    as [mode_slug is_active]. step_eff.
  unfold py_and. destruct (decide (mode_slug = Some AUDIT)) as [-> | Hslug].
  - rewrite (bool_decide_eq_true_2 (Some AUDIT = Some AUDIT)) by done.
    destruct is_active as [[|]|]; cbn [of_opt_bool truthy]; step_eff;
      [by rewrite bool_decide_eq_true_2
      |by rewrite bool_decide_eq_false_2..].
  - rewrite (bool_decide_eq_false_2 (mode_slug = Some AUDIT)) by done.
    cbn [truthy]. step_eff. rewrite bool_decide_eq_false_2; [done|congruence].
Qed.

(** X15: [_get_checkout_link] gives a string, the checkout URL or the empty
    string when the service has none, exactly when checkout is enabled for
    the user and the SKU is a non-empty string; otherwise it gives None and
    does not ask the service for a URL. *)
Theorem _get_checkout_link_value (user : User) (sku : option string) :
  let enabled_with_sku :=
    ecommerce_is_enabled w user
    && (if sku is Some s then negb (String.eqb s "") else false) in
  result (_get_checkout_link w user sku)
  = Returned
      (if enabled_with_sku
       then PyStr (default "" (sku ≫= get_checkout_page_url w))
       else PyNone)
  ∧ consulted GetCheckoutPageUrl (trace (_get_checkout_link w user sku))
    = enabled_with_sku.
Proof.
  unfold _get_checkout_link. step_eff.
  destruct sku as [s|]; [|by rewrite andb_false_r].
  unfold py_and. cbn [truthy option_bind mbind].
  destruct (ecommerce_is_enabled w user); cbn [andb truthy]; [|by step_eff].
  destruct (String.eqb s ""); cbn [negb]; step_eff; [done|].
  destruct (get_checkout_page_url w s) as [url|]; cbn; [|done].
  unfold py_or. cbn [truthy]. destruct (String.eqb_spec url ""); by subst.
Qed.

(** X16: [access_denied_fragment] never raises, and it returns None exactly
    when the course has no verified mode or the user is not in an active
    audit enrollment. *)
Theorem access_denied_fragment_none_iff (block : Block) (user : User) :
  (∃ answer, result (access_denied_fragment w block user) = Returned answer)
  ∧ (result (access_denied_fragment w block user) = Returned None
     ↔ modes_for_course_dict w (block_course_key block) !! VERIFIED = None
       ∨ enrollment_mode_for_user w user (block_course_key block)
         ≠ (Some AUDIT, Some true)).
Proof.
  unfold access_denied_fragment, _is_audit_enrollment, _get_checkout_link.
  step_eff.
  destruct (modes_for_course_dict w (block_course_key block) !! VERIFIED)
    as [verified_mode|]; step_eff; [|split; [eauto | split; [by left | done]]].
  destruct (enrollment_mode_for_user w user (block_course_key block))
    as [mode_slug is_active]. step_eff. unfold py_and.
  case_bool_decide as Hslug; cbn [truthy]; step_eff;
    [|split; [eauto | split; [right; congruence | done]]].
  destruct is_active as [[|]|]; cbn [of_opt_bool truthy]; step_eff;
    try (split; [eauto | split; [right; congruence | done]]).
  subst mode_slug.
  destruct (sku verified_mode); step_eff; cbn [py_and truthy];
    repeat (match goal with
            | |- context [if ?b then _ else _] => destruct b; step_eff
            end);
    (split; [eauto | split; [discriminate | intros [? | ?]; congruence]]).
Qed.

(** X17: a fragment that is returned is rendered from the access-denied
    template with exactly three context entries: whether the request comes
    from the mobile app, the checkout link computed by [_get_checkout_link]
    for the verified mode's SKU, and the verified mode's price as a string. *)
Theorem access_denied_fragment_context
    (block : Block) (user : User) (fragment : Fragment) :
  result (access_denied_fragment w block user) = Returned (Some fragment) →
  ∃ verified_mode,
    modes_for_course_dict w (block_course_key block) !! VERIFIED
      = Some verified_mode
    ∧ template fragment = "content_type_gating/access_denied_message.html"
    ∧ dom (context fragment)
      = ({["mobile_app"; "ecommerce_checkout_link"; "min_price"]} : gset string)
    ∧ context fragment !! "mobile_app" = Some (PyBool (request_from_mobile_app w))
    ∧ Returned <$> (context fragment !! "ecommerce_checkout_link")
      = Some (result (_get_checkout_link w user (sku verified_mode)))
    ∧ context fragment !! "min_price"
      = Some (PyStr (str_int (min_price verified_mode))).
Proof.
  pose proof (_get_checkout_link_value user) as Hlink. cbv zeta in Hlink.
  unfold access_denied_fragment, _is_audit_enrollment. step_eff.
  destruct (modes_for_course_dict w (block_course_key block) !! VERIFIED)
    as [verified_mode|]; step_eff; [|done].
  destruct (Hlink (sku verified_mode)) as [Hvalue _].
  destruct (enrollment_mode_for_user w user (block_course_key block))
    as [mode_slug is_active]. step_eff.
  destruct (truthy (py_and _ _)); step_eff; [|done].
  destruct (_get_checkout_link w user (sku verified_mode)) as [asked link].
  cbn [result snd] in Hvalue. subst link. step_eff.
  intros [= <-]. exists verified_mode. cbn [template context].
  split; [done|]. split; [done|]. split.
  { rewrite !dom_insert_L, dom_empty_L. set_solver. }
  split; [apply lookup_insert_eq|].
  split.
  - rewrite (proj1 (Hlink (sku verified_mode))).
    rewrite lookup_insert_ne by done. by rewrite lookup_insert_eq.
  - by rewrite !lookup_insert_ne, lookup_insert_eq by done.
Qed.

(** X18: whenever [access_denied_fragment] gives a fragment for a block and
    a user, [access_denied_message] gives its message for them too. *)
Theorem access_denied_fragment_implies_message (block : Block) (user : User) :
  (∃ fragment,
     result (access_denied_fragment w block user) = Returned (Some fragment)) →
  ∃ message,
    result (access_denied_message w block user) = Returned (Some message).
Proof.
  intros [fragment Hfragment]. rewrite access_denied_message_value.
  case_bool_decide as Haudit; [eauto|]. exfalso.
  assert (result (access_denied_fragment w block user) = Returned None)
    as Hnone by (apply access_denied_fragment_none_iff; by right).
  congruence.
Qed.

End with_world_blocks.

(** *** The further properties on concrete courses *)

Import Scenario.

Lemma get_group_for_user_two_groups_witness :
  result (get_group_for_user (world_of staff_as_student) course_key staff
            gating_partition) = Returned (Some LIMITED_ACCESS)
  ∨ result (get_group_for_user (world_of staff_as_student) course_key staff
              gating_partition) = Returned (Some FULL_ACCESS).
Proof.
  apply (get_group_for_user_two_groups (world_of staff_as_student) course_key
           staff gating_partition).
  right; reflexivity.
Defined.

Lemma flag_off_full_access_witness :
  result (get_group_for_user (world_of (flag_off unset_config)) course_key
            learner gating_partition) = Returned (Some FULL_ACCESS).
Proof.
  exact (proj1 (flag_off_full_access (world_of (flag_off unset_config))
                  course_key learner gating_partition
                  (or_introl eq_refl) eq_refl)).
Defined.

Lemma no_active_enrollment_limited_access_witness :
  result (get_group_for_user (world_of unenrolled_visitor) course_key learner
            gating_partition) = Returned (Some LIMITED_ACCESS)
  ∧ result (get_group_for_user (world_of inactive_audit_learner) course_key
              learner gating_partition) = Returned (Some LIMITED_ACCESS).
Proof.
  split.
  - refine (proj1 (no_active_enrollment_limited_access
                     (world_of unenrolled_visitor) course_key learner
                     gating_partition None None
                     (or_introl eq_refl) eq_refl _ eq_refl (or_introl eq_refl))).
    by vm_compute.
  - refine (proj1 (no_active_enrollment_limited_access
                     (world_of inactive_audit_learner) course_key learner
                     gating_partition (Some "audit") (Some false)
                     (or_introl eq_refl) eq_refl _ eq_refl
                     (or_intror (or_intror _)))).
    + by vm_compute.
    + discriminate.
Defined.

Lemma known_paid_mode_full_access_witness :
  result (get_group_for_user (world_of verified_learner) course_key learner
            gating_partition) = Returned (Some FULL_ACCESS).
Proof.
  refine (proj1 (known_paid_mode_full_access (world_of verified_learner)
                   course_key learner gating_partition "verified"
                   (or_introl eq_refl) eq_refl _ eq_refl _ _
                   (ex_intro _ verified_mode eq_refl)));
    [by vm_compute | discriminate | discriminate].
Defined.

Lemma specific_student_masquerade_is_transparent_witness :
  result (get_group_for_user (world_of staff_as_student) course_key staff
            gating_partition)
  = result (get_group_for_user (world_of audit_learner) course_key staff
              gating_partition).
Proof.
  exact (proj1 (specific_student_masquerade_is_transparent
                  (world_of staff_as_student) (world_of audit_learner)
                  course_key staff gating_partition
                  eq_refl eq_refl eq_refl eq_refl eq_refl eq_refl
                  (λ _, eq_refl))).
Defined.

Lemma create_content_gating_partition_flags_off_witness :
  create_content_gating_partition (world_of (flag_off unset_config)) plain_course
  = ([Consult ContentTypeGatingFlag; Consult ContentTypeGatingStudioUiFlag],
     Returned None).
Proof.
  apply (create_content_gating_partition_flags_off
           (world_of (flag_off unset_config)) plain_course);
    reflexivity.
Defined.

Lemma create_content_gating_partition_scheme_missing_witness :
  result (create_content_gating_partition (world_of scheme_not_registered)
            plain_course) = Returned None
  ∧ logs (trace (create_content_gating_partition
                   (world_of scheme_not_registered) plain_course))
    = [Logged WARNING no_scheme_message].
Proof.
  apply (create_content_gating_partition_scheme_missing
           (world_of scheme_not_registered) plain_course);
    [left; reflexivity | reflexivity].
Defined.

Lemma created_partition_is_fresh_witness :
  p_id (create_user_partition 51 "Feature-based Enrollments"
          "Partition for segmenting users by access to gated content types"
          None (Some {["course_id" := course_key]}) true) = 51
  ∧ NoDup [50; 51].
Proof.
  destruct (created_partition_is_fresh (world_of audit_learner) plain_course
              (create_user_partition 51 "Feature-based Enrollments"
                 "Partition for segmenting users by access to gated content types"
                 None (Some {["course_id" := course_key]}) true))
    as (Hid & _ & _ & _ & _ & Hdistinct);
    [reflexivity | by vm_compute |].
  split; [exact Hid|]. apply Hdistinct. apply NoDup_singleton.
Defined.

Lemma access_denied_fragment_context_witness :
  ∃ mode,
    modes_for_course_dict (world_of audit_learner_with_checkout)
      (block_course_key block) !! VERIFIED = Some mode
    ∧ template checkout_fragment
      = "content_type_gating/access_denied_message.html"
    ∧ dom (context checkout_fragment)
      = ({["mobile_app"; "ecommerce_checkout_link"; "min_price"]} : gset string)
    ∧ context checkout_fragment !! "mobile_app"
      = Some (PyBool (request_from_mobile_app (world_of audit_learner_with_checkout)))
    ∧ Returned <$> (context checkout_fragment !! "ecommerce_checkout_link")
      = Some (result (_get_checkout_link (world_of audit_learner_with_checkout)
                        learner (sku mode)))
    ∧ context checkout_fragment !! "min_price"
      = Some (PyStr (str_int (min_price mode))).
Proof.
  apply (access_denied_fragment_context (world_of audit_learner_with_checkout)
           block learner checkout_fragment).
  by vm_compute.
Defined.

Lemma access_denied_fragment_implies_message_witness :
  ∃ message,
    result (access_denied_message (world_of audit_learner_with_checkout) block
              learner) = Returned (Some message).
Proof.
  apply (access_denied_fragment_implies_message
           (world_of audit_learner_with_checkout) block learner).
  exists checkout_fragment. by vm_compute.
Defined.

End PartitionsMore.

(** ** Further properties of models.py *)

Module DurationLimitsMore.
Import DurationLimits.

Lemma date_leb_refl (d : date) : date_leb d d = true.
Proof. unfold date_leb. rewrite !Z.eqb_refl. apply Z.leb_refl. Qed.

Lemma date_leb_trans (a b c : date) :
  date_leb a b = true → date_leb b c = true → date_leb a c = true.
Proof.
  unfold date_leb.
  destruct (Z.eqb_spec (year a) (year b)), (Z.eqb_spec (year b) (year c)),
    (Z.eqb_spec (year a) (year c)),
    (Z.eqb_spec (month a) (month b)), (Z.eqb_spec (month b) (month c)),
    (Z.eqb_spec (month a) (month c));
    rewrite ?Z.ltb_lt, ?Z.leb_le; lia.
Qed.

Section with_world.
Context (w : World).

(** X19: with the gating flag on, the three entry points return True after
    reading the flag and nothing else: no argument check, no enrollment or
    configuration lookup, no clock. *)
Theorem flag_on_short_circuits
    (enrollment : option Enrollment) (user : option User)
    (course_key : option CourseKey) (course : CourseKey)
    (target_date : option date) (self : CourseDurationLimitConfig) (day : date) :
  CONTENT_TYPE_GATING_FLAG w = true →
  enabled_for_enrollment w enrollment user course_key
    = ([Consult ContentTypeGatingFlag], Returned (PyBool true))
  ∧ enabled_for_course w course target_date
    = ([Consult ContentTypeGatingFlag], Returned (PyBool true))
  ∧ enabled_as_of_date w self day
    = ([Consult ContentTypeGatingFlag], Returned (PyBool true)).
Proof.
  intros Hflag.
  unfold enabled_for_enrollment, enabled_for_course, enabled_as_of_date.
  rewrite Hflag. by step_eff.
Qed.

(** X20: given an enrollment, the answer is the one of the configuration
    resolved for the enrollment's course on the day the enrollment was
    created; today's date is not read. *)
Theorem enabled_for_enrollment_uses_creation_date (enrollment : Enrollment) :
  result (enabled_for_enrollment w (Some enrollment) None None)
  = result (enabled_as_of_date w (current w (enrollment_course_id enrollment))
              (dt_date (created enrollment)))
  ∧ consulted UtcNow
      (trace (enabled_for_enrollment w (Some enrollment) None None)) = false.
Proof.
  unfold enabled_for_enrollment, enabled_as_of_date, py_date_le.
  destruct (CONTENT_TYPE_GATING_FLAG w); step_eff; [done|].
  cbn. step_eff.
  destruct (truthy _); step_eff; [|done].
  destruct (enabled_as_of _); by step_eff.
Qed.

(** X21: given a user and a course key, a user without an enrollment in the
    course is answered like the course as of today. *)
Theorem enabled_for_enrollment_not_enrolled (user : User) (course_key : CourseKey) :
  get_enrollment w user course_key = None →
  result (enabled_for_enrollment w None (Some user) (Some course_key))
  = result (enabled_for_course w course_key None).
Proof.
  intros Hnone.
  unfold enabled_for_enrollment, enabled_for_course, enabled_as_of_date,
    py_date_le.
  destruct (CONTENT_TYPE_GATING_FLAG w) eqn:Hflag; step_eff; [done|].
  cbn. step_eff. rewrite Hnone. step_eff.
  destruct (truthy _); step_eff; [|done].
  destruct (enabled_as_of _); by step_eff.
Qed.

(** X22: given a user and a course key, a user whose enrollment is found is
    answered as if that enrollment had been passed in. *)
Theorem enabled_for_enrollment_looks_up_enrollment
    (user : User) (course_key : CourseKey) (enrollment : Enrollment) :
  get_enrollment w user course_key = Some enrollment →
  result (enabled_for_enrollment w None (Some user) (Some course_key))
  = result (enabled_for_enrollment w (Some enrollment) None None).
Proof.
  intros Hfound.
  unfold enabled_for_enrollment, enabled_as_of_date, py_date_le.
  destruct (CONTENT_TYPE_GATING_FLAG w) eqn:Hflag; step_eff; [done|].
  cbn. step_eff. rewrite Hfound. step_eff.
  destruct (truthy _); step_eff; [|done].
  destruct (enabled_as_of _); by step_eff.
Qed.

(** X23: limits that are enabled as of a date apply on that very day, and
    once [enabled_as_of_date] answers True for a day it answers True for
    every later day. *)
Theorem enabled_as_of_date_from_then_on
    (self : CourseDurationLimitConfig) (as_of day later : date) :
  enabled self = Some true →
  enabled_as_of self = Some as_of →
  result (enabled_as_of_date w self as_of) = Returned (PyBool true)
  ∧ (result (enabled_as_of_date w self day) = Returned (PyBool true) →
     date_leb day later = true →
     result (enabled_as_of_date w self later) = Returned (PyBool true)).
Proof.
  intros Henabled Has_of.
  destruct (CONTENT_TYPE_GATING_FLAG w) eqn:Hflag.
  - by rewrite !DurationLimitsProofs.enabled_as_of_date_flag_on.
  - rewrite !DurationLimitsProofs.enabled_as_of_date_flag_off by done.
    rewrite Henabled, Has_of, date_leb_refl. split; [done|].
    intros [= Hday] Hlater. by rewrite (date_leb_trans _ _ _ Hday Hlater).
Qed.

(** X24: with the flag off, [clean] accepts a configuration exactly when
    reading it with [enabled_as_of_date] returns a boolean for every day;
    a configuration that [clean] rejects makes every read raise. *)
Theorem clean_iff_reads_return (self : CourseDurationLimitConfig) :
  CONTENT_TYPE_GATING_FLAG w = false →
  (result (clean self) = Returned tt
   ↔ ∀ day, ∃ answer : bool,
       result (enabled_as_of_date w self day) = Returned (PyBool answer))
  ∧ (result (clean self) ≠ Returned tt →
     result (clean self)
     = Raised (ValidationError "enabled_as_of"
                 "enabled_as_of must be set when enabled is True")
     ∧ ∀ day, result (enabled_as_of_date w self day) = Raised TypeError).
Proof.
  intros Hflag. unfold clean, py_and.
  split; [split|].
  - intros Hclean day.
    rewrite DurationLimitsProofs.enabled_as_of_date_flag_off by done.
    destruct (enabled self) as [[|]|]; eauto.
    destruct (enabled_as_of self); eauto. discriminate Hclean.
  - intros Hreads.
    destruct (Hreads {| year := 1; month := 1; day := 1 |}) as [answer Hread].
    rewrite DurationLimitsProofs.enabled_as_of_date_flag_off in Hread by done.
    destruct (enabled self) as [[|]|]; try done.
    by destruct (enabled_as_of self).
  - intros Hrejected.
    destruct (enabled self) as [[|]|] eqn:Henabled; try done.
    destruct (enabled_as_of self) eqn:Has_of; [done|].
    split; [done|]. intros day.
    rewrite DurationLimitsProofs.enabled_as_of_date_flag_off by done.
    by rewrite Henabled, Has_of.
Qed.

(** X25: [enabled_for_enrollment] raises ValueError exactly when the flag is
    off and the arguments are not one of the two accepted shapes; it never
    raises AttributeError, and the message "At least one of enrollment or
    user and course_key must be specified" is never produced. *)
Theorem enabled_for_enrollment_errors
    (enrollment : option Enrollment) (user : option User)
    (course_key : option CourseKey) :
  ((∃ msg, result (enabled_for_enrollment w enrollment user course_key)
           = Raised (ValueError msg))
   ↔ CONTENT_TYPE_GATING_FLAG w = false
     ∧ ¬ (is_Some enrollment ∧ user = None ∧ course_key = None
          ∨ enrollment = None ∧ is_Some user ∧ is_Some course_key))
  ∧ result (enabled_for_enrollment w enrollment user course_key)
    ≠ Raised AttributeError
  ∧ result (enabled_for_enrollment w enrollment user course_key)
    ≠ Raised (ValueError
        "At least one of enrollment or user and course_key must be specified").
Proof.
  unfold enabled_for_enrollment, enabled_for_course, enabled_as_of_date,
    py_date_le.
  destruct (CONTENT_TYPE_GATING_FLAG w) eqn:Hflag; step_eff.
  { split; [|done]. split; [by intros [? ?] | by intros [? _]]. }
  destruct enrollment as [e|], user as [u|], course_key as [k|]; cbn; step_eff;
    try (split; [|done]; split;
         [intros _; split; [done|]; intros [(? & ? & ?) | (? & ? & ?)];
          by (congruence || eapply is_Some_None)
         |eauto]).
  - destruct (truthy _); step_eff; [destruct (enabled_as_of _); step_eff|];
      (split; [|done]); (split; [by intros [? ?]|]);
      intros [_ []]; left; eauto.
  - destruct (get_enrollment w u k); step_eff; rewrite ?Hflag; step_eff;
      (destruct (truthy _); step_eff; [destruct (enabled_as_of _); step_eff|]);
      (split; [|done]); (split; [by intros [? ?]|]);
      intros [_ []]; right; eauto.
Qed.

(** X26: when every configuration the resolver hands out passes [clean],
    a call with an enrollment alone, or with a user and a course key alone,
    returns a boolean. *)
Theorem enabled_for_enrollment_returns_boolean
    (enrollment : option Enrollment) (user : option User)
    (course_key : option CourseKey) :
  (∀ course, result (clean (current w course)) = Returned tt) →
  is_Some enrollment ∧ user = None ∧ course_key = None
  ∨ enrollment = None ∧ is_Some user ∧ is_Some course_key →
  ∃ answer : bool,
    result (enabled_for_enrollment w enrollment user course_key)
    = Returned (PyBool answer).
Proof.
  intros Hclean Hshape.
  destruct (CONTENT_TYPE_GATING_FLAG w) eqn:Hflag.
  { exists true. unfold enabled_for_enrollment. rewrite Hflag. by step_eff. }
  assert (∀ course day, ∃ answer : bool,
            result (enabled_as_of_date w (current w course) day)
            = Returned (PyBool answer)) as Hread.
  { intros course. by apply (clean_iff_reads_return (current w course) Hflag). }
  destruct Hshape as [([e ->] & -> & ->) | (-> & [u ->] & [k ->])].
  - rewrite (proj1 (enabled_for_enrollment_uses_creation_date e)). apply Hread.
  - destruct (get_enrollment w u k) as [e|] eqn:Hfound.
    + rewrite (enabled_for_enrollment_looks_up_enrollment _ _ _ Hfound).
      rewrite (proj1 (enabled_for_enrollment_uses_creation_date e)).
      apply Hread.
    + rewrite (enabled_for_enrollment_not_enrolled _ _ Hfound).
      rewrite (DurationLimitsProofs.enabled_for_course_flag_off _ _ _ Hflag).
      apply Hread.
Qed.

End with_world.

(** *** The further properties on concrete configurations *)

Import Scenario.

Lemma flag_on_short_circuits_witness :
  enabled_for_enrollment (world_of audit_learner) None None None
  = ([Consult ContentTypeGatingFlag], Returned (PyBool true)).
Proof.
  exact (proj1 (flag_on_short_circuits (world_of audit_learner) None None None
                  course_key None unset_config
                  {| year := 2019; month := 1; day := 2 |} eq_refl)).
Defined.

Lemma enabled_for_enrollment_not_enrolled_witness :
  result (enabled_for_enrollment (world_of (flag_off limits_since_december))
            None (Some learner) (Some course_key))
  = result (enabled_for_course (world_of (flag_off limits_since_december))
              course_key None).
Proof.
  apply (enabled_for_enrollment_not_enrolled
           (world_of (flag_off limits_since_december)) learner course_key).
  reflexivity.
Defined.

Lemma enabled_for_enrollment_looks_up_enrollment_witness :
  result (enabled_for_enrollment
            (world_of (flag_off_enrolled limits_since_december))
            None (Some learner) (Some course_key))
  = result (enabled_for_enrollment
              (world_of (flag_off_enrolled limits_since_december))
              (Some january_enrollment) None None).
Proof.
  apply (enabled_for_enrollment_looks_up_enrollment
           (world_of (flag_off_enrolled limits_since_december)) learner
           course_key january_enrollment).
  reflexivity.
Defined.

Lemma enabled_as_of_date_from_then_on_witness :
  result (enabled_as_of_date (world_of (flag_off limits_since_december))
            limits_since_december {| year := 2018; month := 12; day := 1 |})
  = Returned (PyBool true).
Proof.
  exact (proj1 (enabled_as_of_date_from_then_on
                  (world_of (flag_off limits_since_december))
                  limits_since_december
                  {| year := 2018; month := 12; day := 1 |}
                  {| year := 2018; month := 12; day := 1 |}
                  {| year := 2019; month := 1; day := 2 |}
                  eq_refl eq_refl)).
Defined.

Lemma clean_iff_reads_return_witness :
  result (clean enabled_without_date)
  = Raised (ValidationError "enabled_as_of"
              "enabled_as_of must be set when enabled is True")
  ∧ ∀ day,
      result (enabled_as_of_date (world_of (flag_off enabled_without_date))
                enabled_without_date day) = Raised TypeError.
Proof.
  apply (clean_iff_reads_return (world_of (flag_off enabled_without_date))
           enabled_without_date);
    [reflexivity | discriminate].
Defined.

Lemma enabled_for_enrollment_returns_boolean_witness :
  ∃ answer : bool,
    result (enabled_for_enrollment
              (world_of (flag_off_enrolled limits_since_december))
              None (Some learner) (Some course_key))
    = Returned (PyBool answer).
Proof.
  apply (enabled_for_enrollment_returns_boolean
           (world_of (flag_off_enrolled limits_since_december))
           None (Some learner) (Some course_key));
    [intros course; reflexivity
    | right; split; [reflexivity | split; eexists; reflexivity]].
Defined.

End DurationLimitsMore.
